(** * Agro Geospatial Intelligence: the front end's area report

    A shallow embedding of the React front end (App.tsx, Sidebar.tsx,
    DataPanel.tsx, ChartPanel.tsx, DownloadPanel.tsx, LayerControl.tsx,
    LocationSearch.tsx, MapComponent.tsx) and the properties of the area
    report it shows.

    Conventions.
    - A component is a function from its props to the element tree it
      returns; [null] is [None].
    - A JavaScript number is a rational (finite doubles are read as the
      decimal they are written as), with [NaN] and the two infinities
      added where [parseFloat] can produce them.
    - React state is a record; a state setter is a record update.
    - [setTimeout] is a list of pending timers over a millisecond clock. *)

From Stdlib Require Import List String Ascii Bool ZArith QArith Qminmax Lia Lqa.
From Stdlib Require Import DecimalString.
Import ListNotations.

Set Warnings "-register-all".

Local Open Scope string_scope.
Local Open Scope Z_scope.

(** ** JavaScript values *)

(** The props typed [any] (vector data, raster data, the data of a
    selected area) hold arbitrary JSON-like values. *)
Inductive JsValue : Type :=
| JNull
| JBool (b : bool)
| JNum (q : Q)
| JStr (s : string)
| JArr (items : list JsValue)
| JObj (fields : list (string * JsValue)).

(** Property read [v.k]; [undefined] is [JNull]. *)
Fixpoint assoc (k : string) (fields : list (string * JsValue)) : JsValue :=
  match fields with
  | [] => JNull
  | (k', v) :: rest => if String.eqb k k' then v else assoc k rest
  end.

Definition prop (v : JsValue) (k : string) : JsValue :=
  match v with
  | JObj fields => assoc k fields
  | _ => JNull
  end.

(** ** Application types (App.tsx) *)

Inductive AreaType : Type := coordinates | polygon | search.

Definition AreaType_eqb (a b : AreaType) : bool :=
  match a, b with
  | coordinates, coordinates | polygon, polygon | search, search => true
  | _, _ => false
  end.

Definition AreaType_text (a : AreaType) : string :=
  match a with
  | coordinates => "coordinates"
  | polygon => "polygon"
  | search => "search"
  end.

(** [interface SelectedArea { type; data: any; label?: string }] *)
Record SelectedArea : Type := mkSelectedArea {
  type : AreaType;
  data : JsValue;
  label : option string
}.

(** [interface LayerVisibility { soil; rainfall; ndvi }] *)
Record LayerVisibility : Type := mkLayerVisibility {
  soil : bool;
  rainfall : bool;
  ndvi : bool
}.

(** [keyof LayerVisibility] *)
Inductive LayerKey : Type := k_soil | k_rainfall | k_ndvi.

(** ** Element trees *)

(** What an event handler attached to an element does when it fires. *)
Inductive Handler : Type :=
| CallToggleLayer (layer : LayerKey)
| CallHandleDownload (format : string)
| CallHandleSearch
| CallHandleCoordinateSubmit
| CallSetSearchQuery
| CallSetLat
| CallSetLng.

Inductive Attr : Type :=
| className (s : string)
| id (s : string)
| htmlFor (s : string)
| inputType (s : string)
| value (s : string)
| placeholder (s : string)
| checked (b : bool)
| onChange (h : Handler)
| onClick (h : Handler)
| onSubmit (h : Handler).

Inductive ChartKind : Type := Line | Bar.

(** The element tree a component returns.  [Num] is a number placed in
    the tree by an expression such as [{mockSoilData.ph}]; [Chart] is a
    [react-chartjs-2] element with its labels and its one dataset. *)
Inductive Node : Type :=
| Text (s : string)
| Num (q : Q)
| Elem (tag : string) (attrs : list Attr) (children : list Node)
| Chart (kind : ChartKind) (labels : list string)
        (datasetLabel : string) (dataset : list Q).

(** A child expression [c && <e/>]: nothing when [c] is false. *)
Definition when (c : bool) (n : Node) : list Node :=
  if c then [n] else [].

(** A component that returned [null] contributes no child. *)
Definition child (o : option Node) : list Node :=
  match o with
  | Some n => [n]
  | None => []
  end.

(** ** DataPanel.tsx *)

Module DataPanelMock.

(** [const mockSoilData = { type: 'Alluvial', ph: 6.8, ... }] *)
Record SoilData : Type := mkSoil {
  soil_type : string;
  ph : Q;
  organicMatter : string;
  nitrogen : string;
  phosphorus : string;
  potassium : string
}.

Definition mockSoilData : SoilData :=
  {| soil_type := "Alluvial";
     ph := 6.8;
     organicMatter := "2.3%";
     nitrogen := "Medium";
     phosphorus := "Low";
     potassium := "High" |}.

(** [const mockRainfallData = { annualAverage: '1200mm', ... }] *)
Record RainfallData : Type := mkRainfall {
  annualAverage : string;
  monsoonAverage : string;
  drySeasonAverage : string;
  zone : string
}.

Definition mockRainfallData : RainfallData :=
  {| annualAverage := "1200mm";
     monsoonAverage := "850mm";
     drySeasonAverage := "120mm";
     zone := "High Rainfall Zone" |}.

(** [const mockCropData = { suitableCrops: [...], ... }] *)
Record CropData : Type := mkCrop {
  suitableCrops : list string;
  recommendedCrop : string;
  growingSeason : string
}.

Definition mockCropData : CropData :=
  {| suitableCrops := ["Rice"; "Wheat"; "Sugarcane"; "Vegetables"];
     recommendedCrop := "Rice";
     growingSeason := "June - November" |}.

End DataPanelMock.
Import DataPanelMock.

(** [Array.prototype.join] on strings. *)
Fixpoint join (sep : string) (l : list string) : string :=
  match l with
  | [] => ""
  | [x] => x
  | x :: rest => x ++ sep ++ join sep rest
  end.

(** A table row [<tr><td>name</td><td>{value}</td></tr>]. *)
Definition row (name : string) (value : Node) : Node :=
  Elem "tr" [] [Elem "td" [] [Text name]; Elem "td" [] [value]].

(** [<p><strong>name</strong> {value}</p>] *)
Definition strongLine (name value : string) : Node :=
  Elem "p" [] [Elem "strong" [] [Text name]; Text " "; Text value].

(** The [label && <span> - {label}</span>] child: absent for an
    undefined or empty label. *)
Definition labelSpan (l : option string) : list Node :=
  match l with
  | Some s => when (negb (String.eqb s "")) (Elem "span" [] [Text " - "; Text s])
  | None => []
  end.

Definition DataPanel (selectedArea : option SelectedArea)
                     (vectorData rasterData : JsValue) : option Node :=
  match selectedArea with
  | None => None
  | Some selectedArea =>
    Some (Elem "div" [className "data-panel"]
      [ Elem "h3" [] [Text "Area Information"];
        Elem "div" [className "area-info"]
          ( Elem "p" []
              ( [Elem "strong" [] [Text "Selection Type:"]; Text " ";
                 Text (AreaType_text (type selectedArea))]
                ++ labelSpan (label selectedArea) )
            :: when (AreaType_eqb (type selectedArea) polygon)
                 (Elem "p" []
                    [Elem "strong" [] [Text "Area Size:"];
                     Text " ~25 hectares"]) );
        Elem "div" [className "data-section"]
          [ Elem "h4" [] [Text "Soil Data"];
            Elem "table" []
              [Elem "tbody" []
                 [ row "Soil Type:" (Text (soil_type mockSoilData));
                   row "pH Level:" (Num (ph mockSoilData));
                   row "Organic Matter:" (Text (organicMatter mockSoilData));
                   row "Nitrogen:" (Text (nitrogen mockSoilData));
                   row "Phosphorus:" (Text (phosphorus mockSoilData));
                   row "Potassium:" (Text (potassium mockSoilData)) ]] ];
        Elem "div" [className "data-section"]
          [ Elem "h4" [] [Text "Rainfall Data"];
            Elem "table" []
              [Elem "tbody" []
                 [ row "Annual Average:" (Text (annualAverage mockRainfallData));
                   row "Monsoon Average:" (Text (monsoonAverage mockRainfallData));
                   row "Dry Season Average:"
                       (Text (drySeasonAverage mockRainfallData));
                   row "Rainfall Zone:" (Text (zone mockRainfallData)) ]] ];
        Elem "div" [className "data-section"]
          [ Elem "h4" [] [Text "Crop Suitability"];
            strongLine "Suitable Crops:"
                       (join ", " (suitableCrops mockCropData));
            strongLine "Recommended Crop:" (recommendedCrop mockCropData);
            strongLine "Growing Season:" (growingSeason mockCropData) ] ])
  end.

(** ** Numbers and effects of the handlers *)

(** A number as [parseFloat] returns it. *)
Inductive JsNumber : Type :=
| NaN
| Finite (q : Q)
| Infinity (negative : bool).

Definition isNaN (n : JsNumber) : bool :=
  match n with
  | NaN => true
  | _ => false
  end.

Definition Qlt_bool (x y : Q) : bool := negb (Qle_bool y x).

(** [a < b]; every comparison with [NaN] is false. *)
Definition lt (a b : JsNumber) : bool :=
  match a, b with
  | NaN, _ | _, NaN => false
  | Finite x, Finite y => Qlt_bool x y
  | Infinity true, Infinity true => false
  | Infinity true, _ => true
  | _, Infinity true => false
  | Infinity false, _ => false
  | Finite _, Infinity false => true
  end.

(** [a > b] *)
Definition gt (a b : JsNumber) : bool := lt b a.

(** An argument of [console.log], or a piece of a template literal. *)
Inductive Piece : Type :=
| str (s : string)
| num (n : JsNumber).

(** What a handler does to the outside world, in program order. *)
Inductive Effect : Type :=
| preventDefault
| consoleLog (args : list Piece)
| alert (message : list Piece)
| onAreaSelection (area : SelectedArea).

(** ** DownloadPanel.tsx *)

Definition handleDownload (format : string) : list Effect :=
  [ consoleLog [str ("Downloading data in " ++ format ++ " format")];
    alert [str ("In a real app, this would download the data in "
                ++ format ++ " format")] ].

Definition downloadButton (format caption : string) : Node :=
  Elem "button" [className "download-button";
                 onClick (CallHandleDownload format)]
       [Text caption].

Definition DownloadPanel (selectedArea : option SelectedArea)
                         (vectorData rasterData : JsValue) : option Node :=
  match selectedArea with
  | None => None
  | Some _ =>
    Some (Elem "div" [className "download-panel"]
      [ Elem "h3" [] [Text "Download Data"];
        Elem "div" [className "download-buttons"]
          [ downloadButton "CSV" "CSV";
            downloadButton "GeoJSON" "GeoJSON";
            downloadButton "GeoTIFF" "GeoTIFF";
            downloadButton "PDF" "PDF Report" ] ])
  end.

(** ** ChartPanel.tsx *)

Definition months : list string :=
  ["Jan"; "Feb"; "Mar"; "Apr"; "May"; "Jun";
   "Jul"; "Aug"; "Sep"; "Oct"; "Nov"; "Dec"].

(** The two charts; their colours and display options are left out. *)
Definition ChartPanel (vectorData rasterData : JsValue) : Node :=
  Elem "div" [className "chart-panel"]
    [ Elem "h3" [] [Text "Data Visualization"];
      Elem "div" [className "chart-container"]
        [ Elem "h4" [] [Text "NDVI Vegetation Index (Annual)"];
          Chart Line months "NDVI Index"
            [0.2; 0.25; 0.3; 0.4; 0.5; 0.65; 0.7; 0.75; 0.6; 0.5; 0.4; 0.3]%Q ];
      Elem "div" [className "chart-container"]
        [ Elem "h4" [] [Text "Monthly Rainfall Distribution"];
          Chart Bar months "Rainfall (mm)"
            [20; 30; 45; 60; 120; 250; 300; 280; 150; 70; 40; 25]%Q ] ].

(** ** LayerControl.tsx *)

Definition layerCheckbox (ident : string) (isChecked : bool)
                         (layer : LayerKey) (caption : string) : Node :=
  Elem "div" [className "layer-control"]
    [ Elem "input" [inputType "checkbox"; id ident; checked isChecked;
                    onChange (CallToggleLayer layer)] [];
      Elem "label" [htmlFor ident] [Text caption] ].

Definition LayerControl (layerVisibility : LayerVisibility) : Node :=
  Elem "div" [className "layer-controls"]
    [ layerCheckbox "soil-layer" (soil layerVisibility) k_soil "Soil Data";
      layerCheckbox "rainfall-layer" (rainfall layerVisibility) k_rainfall
                    "Rainfall Zones";
      layerCheckbox "ndvi-layer" (ndvi layerVisibility) k_ndvi
                    "NDVI Vegetation Index" ].

(** ** LocationSearch.tsx *)

Module LocationSearch.

(** [useState<{lat: string, lng: string}>] *)
Record Coordinates : Type := mkCoordinates {
  lat : string;
  lng : string
}.

Record State : Type := mkState {
  searchQuery : string;
  coordinates : Coordinates
}.

Definition initial : State :=
  {| searchQuery := ""; coordinates := {| lat := ""; lng := "" |} |}.

(** The three [onChange] handlers of the inputs. *)
Definition setSearchQuery (v : string) (st : State) : State :=
  {| searchQuery := v; coordinates := coordinates st |}.

Definition setLat (v : string) (st : State) : State :=
  {| searchQuery := searchQuery st;
     coordinates := {| lat := v; lng := lng (coordinates st) |} |}.

Definition setLng (v : string) (st : State) : State :=
  {| searchQuery := searchQuery st;
     coordinates := {| lat := lat (coordinates st); lng := v |} |}.

Definition handleSearch (st : State) : list Effect :=
  [ preventDefault;
    consoleLog [str "Searching for:"; str (searchQuery st)];
    alert [str ("Search functionality would call Google Maps API to find: "
                ++ searchQuery st)] ].

Section WithParseFloat.

(** The built-in [parseFloat]. *)
Variable parseFloat : string -> JsNumber.

(** The test of the [if] in [handleCoordinateSubmit]. *)
Definition invalidCoordinates (lat lng : JsNumber) : bool :=
  isNaN lat || isNaN lng
  || lt lat (Finite (-90)) || gt lat (Finite 90)
  || lt lng (Finite (-180)) || gt lng (Finite 180).

Definition handleCoordinateSubmit (st : State) : list Effect :=
  let lat := parseFloat (lat (coordinates st)) in
  let lng := parseFloat (lng (coordinates st)) in
  preventDefault ::
  if invalidCoordinates lat lng
  then [alert [str "Please enter valid coordinates"]]
  else [ consoleLog [str "Coordinates entered:"; num lat; num lng];
         alert [str "Map would center on coordinates: "; num lat;
                str ", "; num lng] ].

  End WithParseFloat.

Definition render (st : State) : Node :=
  Elem "div" [className "location-search"]
    [ Elem "form" [onSubmit CallHandleSearch]
        [Elem "div" [className "form-group"]
           [ Elem "label" [htmlFor "search"] [Text "Search Location:"];
             Elem "div" [className "search-input"]
               [ Elem "input" [inputType "text"; id "search";
                               value (searchQuery st);
                               onChange CallSetSearchQuery;
                               placeholder "Enter city, district, or state"]
                      [];
                 Elem "button" [inputType "submit"] [Text "Search"] ] ]];
      Elem "form" [onSubmit CallHandleCoordinateSubmit]
        [Elem "div" [className "form-group"]
           [ Elem "label" [] [Text "Enter Coordinates:"];
             Elem "div" [className "coordinates-input"]
               [ Elem "input" [inputType "text";
                               value (lat (coordinates st));
                               onChange CallSetLat;
                               placeholder "Latitude"] [];
                 Elem "input" [inputType "text";
                               value (lng (coordinates st));
                               onChange CallSetLng;
                               placeholder "Longitude"] [];
                 Elem "button" [inputType "submit"] [Text "Go"] ] ]];
      Elem "div" [className "draw-instructions"]
        [Elem "p" []
           [Elem "small" []
              [Text "Or use the polygon tool on the map to draw an area"]]] ].

End LocationSearch.

(** ** Reading decimal numbers

    [parseFloat] on ASCII input: leading white space is skipped, the
    longest prefix that is a decimal literal (or [Infinity]) is read and
    the rest ignored; without such a prefix the result is [NaN]. *)

Module Decimal.

Definition isWhiteSpace (c : ascii) : bool :=
  let n := Z.of_N (N_of_ascii c) in
  (n =? 32) || ((9 <=? n) && (n <=? 13)).

Definition digitOf (c : ascii) : option Z :=
  let n := Z.of_N (N_of_ascii c) in
  if (48 <=? n) && (n <=? 57) then Some (n - 48) else None.

Fixpoint skipWhite (l : list ascii) : list ascii :=
  match l with
  | c :: r => if isWhiteSpace c then skipWhite r else l
  | [] => []
  end.

(** Reads a run of digits onto [acc]; also returns how many were read. *)
Fixpoint readDigits (acc count : Z) (l : list ascii) : Z * Z * list ascii :=
  match l with
  | c :: r =>
    match digitOf c with
    | Some d => readDigits (10 * acc + d) (count + 1) r
    | None => (acc, count, l)
    end
  | [] => (acc, count, [])
  end.

Definition readSign (l : list ascii) : bool * list ascii :=
  match l with
  | c :: r =>
    if Ascii.eqb c "-" then (true, r)
    else if Ascii.eqb c "+" then (false, r)
    else (false, l)
  | [] => (false, [])
  end.

Fixpoint startsWith (p l : list ascii) : bool :=
  match p, l with
  | [], _ => true
  | a :: p', b :: l' => Ascii.eqb a b && startsWith p' l'
  | _ :: _, [] => false
  end.

(** An exponent part counts only when a digit follows it. *)
Definition readExponent (l : list ascii) : Z :=
  match l with
  | c :: r =>
    if Ascii.eqb c "e" || Ascii.eqb c "E" then
      let (neg, r') := readSign r in
      let '(v, n, _) := readDigits 0 0 r' in
      if n =? 0 then 0 else if neg then - v else v
    else 0
  | [] => 0
  end.

(** [mant * 10 ^ e] *)
Definition scale (mant e : Z) : Q :=
  if 0 <=? e then (mant * 10 ^ e) # 1
  else mant # Z.to_pos (10 ^ (- e)).

Definition parseFloat (s : string) : JsNumber :=
  let l := skipWhite (list_ascii_of_string s) in
  let (neg, l1) := readSign l in
  if startsWith (list_ascii_of_string "Infinity") l1 then Infinity neg
  else
    let '(ip, ni, l2) := readDigits 0 0 l1 in
    let '(mant, nf, l3) :=
      match l2 with
      | c :: r => if Ascii.eqb c "." then readDigits ip 0 r else (ip, 0, l2)
      | [] => (ip, 0, l2)
      end in
    if (ni =? 0) && (nf =? 0) then NaN
    else Finite (Qred (scale (if neg then - mant else mant)
                             (readExponent l3 - nf))).

End Decimal.

(** ** Sidebar.tsx *)

(** The part of the sidebar below the two control panels. *)
Definition dataDisplay (selectedArea : option SelectedArea)
                       (vectorData rasterData : JsValue)
                       (isLoading : bool) : list Node :=
  if isLoading then
    [Elem "div" [className "loading"] [Text "Loading data..."]]
  else
    match selectedArea with
    | Some _ =>
      child (DataPanel selectedArea vectorData rasterData)
      ++ [ChartPanel vectorData rasterData]
      ++ child (DownloadPanel selectedArea vectorData rasterData)
    | None =>
      [Elem "div" [className "no-selection"]
         [Elem "p" [] [Text "Select an area on the map to view data"]]]
    end.

Definition Sidebar (search : LocationSearch.State)
                   (selectedArea : option SelectedArea)
                   (layerVisibility : LayerVisibility)
                   (vectorData rasterData : JsValue)
                   (isLoading : bool) : Node :=
  Elem "div" [className "sidebar"]
    ( [ Elem "h2" [] [Text "Agricultural Intelligence"];
        Elem "div" [className "control-panel"]
          [ Elem "h3" [] [Text "Location Selection"];
            LocationSearch.render search;
            Elem "p" [className "help-text"]
              [Text "Search for a location, enter coordinates, or draw a polygon on the map"] ];
        Elem "div" [className "control-panel"]
          [ Elem "h3" [] [Text "Map Layers"];
            LayerControl layerVisibility ] ]
      ++ dataDisplay selectedArea vectorData rasterData isLoading ).

(** ** MapComponent.tsx: the drawing handler *)

Module MapComponent.

(** A Leaflet [LatLng]. *)
Record LatLng : Type := mkLatLng {
  lat : Q;
  lng : Q
}.

(** The [created] event of the drawing tool: the kind of layer drawn
    and what [layer.getLatLngs()] returns, a list of rings. *)
Record DrawEvent : Type := mkDrawEvent {
  layerType : string;
  getLatLngs : list (list LatLng)
}.

(** [(coord) => [coord.lat, coord.lng]] *)
Definition pair (coord : LatLng) : JsValue :=
  JArr [JNum (lat coord); JNum (lng coord)].

(** [None] is the [TypeError] of [undefined.map] when the event has no
    ring at index 0. *)
Definition handleCreated (e : DrawEvent) : option (list Effect) :=
  if String.eqb (layerType e) "polygon" then
    match getLatLngs e with
    | ring :: _ =>
      let polygonCoords := JArr (map pair ring) in
      Some [onAreaSelection
              {| type := polygon; data := polygonCoords; label := None |}]
    | [] => None
    end
  else Some [].

End MapComponent.

(** ** App.tsx: the state of [MainApp] and its two functions *)

Record AppState : Type := mkAppState {
  selectedArea : option SelectedArea;
  layerVisibility : LayerVisibility;
  mapCenter : Q * Q;
  mapZoom : Q;
  isLoading : bool;
  vectorData : JsValue;
  rasterData : JsValue
}.

(** The arguments of the [useState] calls. *)
Definition initialState : AppState :=
  {| selectedArea := None;
     layerVisibility := {| soil := true; rainfall := true; ndvi := false |};
     mapCenter := (20.5937, 78.9629)%Q;
     mapZoom := 5%Q;
     isLoading := false;
     vectorData := JNull;
     rasterData := JNull |}.

(** [prev[layer]] *)
Definition getLayer (prev : LayerVisibility) (layer : LayerKey) : bool :=
  match layer with
  | k_soil => soil prev
  | k_rainfall => rainfall prev
  | k_ndvi => ndvi prev
  end.

(** [{ ...prev, [layer]: v }] *)
Definition setLayer (prev : LayerVisibility) (layer : LayerKey) (v : bool)
  : LayerVisibility :=
  match layer with
  | k_soil => {| soil := v; rainfall := rainfall prev; ndvi := ndvi prev |}
  | k_rainfall => {| soil := soil prev; rainfall := v; ndvi := ndvi prev |}
  | k_ndvi => {| soil := soil prev; rainfall := rainfall prev; ndvi := v |}
  end.

(** The updater [prev => ({ ...prev, [layer]: !prev[layer] })]. *)
Definition toggleUpdater (layer : LayerKey) (prev : LayerVisibility)
  : LayerVisibility :=
  setLayer prev layer (negb (getLayer prev layer)).

Definition setLayerVisibility (f : LayerVisibility -> LayerVisibility)
                              (s : AppState) : AppState :=
  {| selectedArea := selectedArea s;
     layerVisibility := f (layerVisibility s);
     mapCenter := mapCenter s;
     mapZoom := mapZoom s;
     isLoading := isLoading s;
     vectorData := vectorData s;
     rasterData := rasterData s |}.

Definition toggleLayer (layer : LayerKey) (s : AppState) : AppState :=
  setLayerVisibility (toggleUpdater layer) s.

Definition setSelectedArea (a : option SelectedArea) (s : AppState) : AppState :=
  {| selectedArea := a;
     layerVisibility := layerVisibility s;
     mapCenter := mapCenter s;
     mapZoom := mapZoom s;
     isLoading := isLoading s;
     vectorData := vectorData s;
     rasterData := rasterData s |}.

Definition setIsLoading (b : bool) (s : AppState) : AppState :=
  {| selectedArea := selectedArea s;
     layerVisibility := layerVisibility s;
     mapCenter := mapCenter s;
     mapZoom := mapZoom s;
     isLoading := b;
     vectorData := vectorData s;
     rasterData := rasterData s |}.

Definition setVectorData (v : JsValue) (s : AppState) : AppState :=
  {| selectedArea := selectedArea s;
     layerVisibility := layerVisibility s;
     mapCenter := mapCenter s;
     mapZoom := mapZoom s;
     isLoading := isLoading s;
     vectorData := v;
     rasterData := rasterData s |}.

Definition setRasterData (v : JsValue) (s : AppState) : AppState :=
  {| selectedArea := selectedArea s;
     layerVisibility := layerVisibility s;
     mapCenter := mapCenter s;
     mapZoom := mapZoom s;
     isLoading := isLoading s;
     vectorData := vectorData s;
     rasterData := v |}.

(** *** Timers *)

(** The closures handed to [setTimeout]; [MainApp] has one. *)
Inductive Callback : Type := areaDataArrived.

(** [() => { setVectorData({}); setRasterData({}); setIsLoading(false); }] *)
Definition runCallback (c : Callback) (s : AppState) : AppState :=
  match c with
  | areaDataArrived =>
    setIsLoading false (setRasterData (JObj []) (setVectorData (JObj []) s))
  end.

Record Timer : Type := mkTimer {
  due : Z;
  callback : Callback
}.

(** The running page: component state, the clock in milliseconds and the
    timers not yet fired, oldest first. *)
Record World : Type := mkWorld {
  app : AppState;
  now : Z;
  timers : list Timer
}.

(** The delay of the simulated request. *)
Definition delay : Z := 1000.

(** [setTimeout(c, ms)] *)
Definition setTimeout (c : Callback) (ms : Z) (w : World) : World :=
  {| app := app w;
     now := now w;
     timers := timers w ++ [{| due := now w + ms; callback := c |}] |}.

Definition update (f : AppState -> AppState) (w : World) : World :=
  {| app := f (app w); now := now w; timers := timers w |}.

Definition handleAreaSelection (area : SelectedArea) (w : World) : World :=
  setTimeout areaDataArrived delay
    (update (setIsLoading true) (update (setSelectedArea (Some area)) w)).

(** Expired timers fire in order of expiry, the older first among equals. *)
Fixpoint insertByDue (t : Timer) (l : list Timer) : list Timer :=
  match l with
  | [] => [t]
  | u :: rest =>
    if due t <? due u then t :: l else u :: insertByDue t rest
  end.

Definition sortByDue (l : list Timer) : list Timer :=
  fold_left (fun acc t => insertByDue t acc) l [].

Definition expired (t : Z) (tm : Timer) : bool := due tm <=? t.

(** The clock reaches [t]: every timer due by then fires. *)
Definition runUntil (t : Z) (w : World) : World :=
  let fired := sortByDue (filter (expired t) (timers w)) in
  {| app := fold_left (fun s tm => runCallback (callback tm) s) fired (app w);
     now := Z.max (now w) t;
     timers := filter (fun tm => negb (expired t tm)) (timers w) |}.

(** A handler's effects on the page: [onAreaSelection] is the prop that
    [MainApp] binds to [handleAreaSelection]; the others leave the state
    alone. *)
Definition perform (e : Effect) (w : World) : World :=
  match e with
  | onAreaSelection area => handleAreaSelection area w
  | _ => w
  end.

(** The user finishes drawing a shape on the map. *)
Definition draw (e : MapComponent.DrawEvent) (w : World) : option World :=
  match MapComponent.handleCreated e with
  | Some effects => Some (fold_left (fun w' eff => perform eff w') effects w)
  | None => None
  end.

(** What the sidebar shows below its controls. *)
Definition shown (w : World) : list Node :=
  dataDisplay (selectedArea (app w)) (vectorData (app w))
              (rasterData (app w)) (isLoading (app w)).

(** ** Reading an element tree *)

(** A node and everything below it, in document order. *)
Fixpoint descendants (n : Node) : list Node :=
  n :: match n with
       | Elem _ _ children => flat_map descendants children
       | _ => []
       end.

Definition isClass (c : string) (a : Attr) : bool :=
  match a with
  | className c' => String.eqb c c'
  | _ => false
  end.

Definition hasClass (c : string) (n : Node) : bool :=
  match n with
  | Elem _ attrs _ => existsb (isClass c) attrs
  | _ => false
  end.

(** The text of an [h4] heading. *)
Definition heading (n : Node) : list string :=
  match n with
  | Elem "h4" _ [Text t] => [t]
  | _ => []
  end.

(** The headings of the sections of a tree, top to bottom. *)
Definition headings (n : Node) : list string :=
  flat_map heading (descendants n).

(** A two-cell table row read as a name and its value. *)
Definition asEntry (n : Node) : list (string * Node) :=
  match n with
  | Elem "tr" _ [Elem "td" _ [Text name]; Elem "td" _ [v]] => [(name, v)]
  | _ => []
  end.

Definition entries (n : Node) : list (string * Node) :=
  flat_map asEntry (descendants n).

Fixpoint lookup (name : string) (l : list (string * Node)) : option Node :=
  match l with
  | [] => None
  | (k, v) :: rest => if String.eqb name k then Some v else lookup name rest
  end.

(** The section of a panel under a given heading. *)
Definition isSection (title : string) (n : Node) : bool :=
  match n with
  | Elem "div" _ (Elem "h4" _ [Text t] :: _) =>
    hasClass "data-section" n && String.eqb title t
  | _ => false
  end.

Definition sectionEntries (title : string) (n : Node) : list (string * Node) :=
  flat_map entries (filter (isSection title) (descendants n)).

(** The number a panel shows against [name], if it shows one. *)
Definition reportedNumber (name : string) (panel : option Node) : option Q :=
  match panel with
  | Some n =>
    match lookup name (entries n) with
    | Some (Num q) => Some q
    | _ => None
    end
  | None => None
  end.

(** The text a panel shows against [name], if it shows one. *)
Definition reportedText (name : string) (panel : option Node) : option string :=
  match panel with
  | Some n =>
    match lookup name (entries n) with
    | Some (Text s) => Some s
    | _ => None
    end
  | None => None
  end.

(** ** The aggregation rules of the design, for comparison

    These definitions follow the words of the design document (section
    4.3, steps 2 and 4, and section 4.5); nothing in the sources computes
    them.  They serve to state what the document asks of the values that
    the panel reports. *)

Module Spec.

Inductive LayerKind : Type := Soil | Rainfall | CropSuitability | Raster.

(** The fixed order of the layers of a report. *)
Definition layerOrder : list LayerKind :=
  [Soil; Rainfall; CropSuitability; Raster].

(** A candidate feature of a layer with its overlap with the area of
    interest: its stable identifier, the value of a numeric attribute,
    the value of a categorical attribute, and the intersection area. *)
Record Contribution : Type := mkContribution {
  featureId : Z;
  attribute : Q;
  category : string;
  intersectionArea : Q
}.

(** Candidates whose intersection has zero area are discarded. *)
Definition contributes (c : Contribution) : bool :=
  Qlt_bool 0 (intersectionArea c).

Definition contributing (cs : list Contribution) : list Contribution :=
  filter contributes cs.

(** The two sums, accumulated feature by feature. *)
Definition products (l : list Contribution) (acc : Q) : Q :=
  fold_left (fun acc c => acc + attribute c * intersectionArea c)%Q l acc.

Definition areas (l : list Contribution) (acc : Q) : Q :=
  fold_left (fun acc c => acc + intersectionArea c)%Q l acc.

Definition weightedSum (cs : list Contribution) : Q :=
  products (contributing cs) 0%Q.

Definition totalArea (cs : list Contribution) : Q :=
  areas (contributing cs) 0%Q.

(** The area-weighted mean; absent without a contributing feature. *)
Definition areaWeightedMean (cs : list Contribution) : option Q :=
  match contributing cs with
  | [] => None
  | _ :: _ => Some (weightedSum cs / totalArea cs)%Q
  end.

(** The least and the greatest value among the contributing features. *)
Definition minValue (cs : list Contribution) : option Q :=
  match contributing cs with
  | [] => None
  | c :: rest => Some (fold_left (fun m d => Qmin m (attribute d)) rest (attribute c))
  end.

Definition maxValue (cs : list Contribution) : option Q :=
  match contributing cs with
  | [] => None
  | c :: rest => Some (fold_left (fun m d => Qmax m (attribute d)) rest (attribute c))
  end.

(** The area accumulated by one value of the categorical attribute. *)
Definition areaOf (v : string) (cs : list Contribution) : Q :=
  fold_left (fun acc c => if String.eqb v (category c)
                          then (acc + intersectionArea c)%Q else acc)
            (contributing cs) 0%Q.

(** [c] wins over [best]: its value has the greater accumulated area,
    or the same area and [c] has the lower identifier. *)
Definition beats (cs : list Contribution) (c best : Contribution) : bool :=
  let ac := areaOf (category c) cs in
  let ab := areaOf (category best) cs in
  Qlt_bool ab ac || (Qeq_bool ab ac && (featureId c <? featureId best)).

(** The dominant value of the categorical attribute. *)
Definition dominantCategory (cs : list Contribution) : option string :=
  match contributing cs with
  | [] => None
  | c :: rest =>
    Some (category (fold_left (fun best d => if beats cs d best then d else best)
                              rest c))
  end.

(** The features as they would reach the page in its vector data. *)
Definition feature (c : Contribution) : JsValue :=
  JObj [ ("id", JNum (inject_Z (featureId c)));
         ("ph_value", JNum (attribute c));
         ("soil_type", JStr (category c));
         ("overlap", JNum (intersectionArea c)) ].

Definition soilLayer (cs : list Contribution) : JsValue :=
  JObj [("soil", JArr (map feature cs))].

End Spec.

(** The layer that a heading of the report stands for. *)
Definition layerOfHeading (t : string) : list Spec.LayerKind :=
  if String.eqb t "Soil Data" then [Spec.Soil]
  else if String.eqb t "Rainfall Data" then [Spec.Rainfall]
  else if String.eqb t "Crop Suitability" then [Spec.CropSuitability]
  else if String.eqb t "NDVI Vegetation Index (Annual)" then [Spec.Raster]
  else [].

(** The layers a panel lists, top to bottom. *)
Definition layersListed (panel : option Node) : list Spec.LayerKind :=
  match panel with
  | Some n => flat_map layerOfHeading (headings n)
  | None => []
  end.

(** ** The report of a page and the properties asked of it *)

(** The report of the selected area as the page holds and shows it. *)
Definition report (w : World)
  : option SelectedArea * JsValue * JsValue * list Node :=
  (selectedArea (app w), vectorData (app w), rasterData (app w), shown w).

(** The page once the simulated request of [area] has delivered. *)
Definition delivered (area : SelectedArea) (s : AppState) : AppState :=
  runCallback areaDataArrived
    (setIsLoading true (setSelectedArea (Some area) s)).

(** What the sidebar shows while a request is in flight. *)
Definition loadingDisplay : list Node :=
  [Elem "div" [className "loading"] [Text "Loading data..."]].

(** What the sidebar shows for [area] once the request has delivered. *)
Definition reportDisplay (area : SelectedArea) : list Node :=
  dataDisplay (Some area) (JObj []) (JObj []) false.

(** The panel reports, against [name], the area-weighted mean of the
    contributions [cs]. *)
Definition reportsAreaWeightedMean (name : string) (panel : option Node)
                                   (cs : list Spec.Contribution) : Prop :=
  exists q m, reportedNumber name panel = Some q
              /\ Spec.areaWeightedMean cs = Some m
              /\ (q == m)%Q.

(** The number the panel reports against [name] lies between the least
    and the greatest value of the contributing features. *)
Definition withinContributingRange (name : string) (panel : option Node)
                                   (cs : list Spec.Contribution) : Prop :=
  exists q lo hi, reportedNumber name panel = Some q
                  /\ Spec.minValue cs = Some lo
                  /\ Spec.maxValue cs = Some hi
                  /\ (lo <= q)%Q /\ (q <= hi)%Q.

(** The panel reports, against [name], the dominant category of the
    contributions [cs], ties going to the lowest identifier. *)
Definition reportsDominantCategory (name : string) (panel : option Node)
                                   (cs : list Spec.Contribution) : Prop :=
  exists s, reportedText name panel = Some s
            /\ Spec.dominantCategory cs = Some s.

(** The panel is rendered and its section [title] holds no aggregate. *)
Definition reportsNoAggregates (title : string) (panel : option Node) : Prop :=
  exists n, panel = Some n /\ sectionEntries title n = [].

(** A vertex outside latitude [-90, 90] or longitude [-180, 180]. *)
Definition outOfBounds (c : MapComponent.LatLng) : Prop :=
  (MapComponent.lat c < -90 \/ 90 < MapComponent.lat c
   \/ MapComponent.lng c < -180 \/ 180 < MapComponent.lng c)%Q.

(** A drawn shape is turned away: the page is left as it was. *)
Definition rejects (e : MapComponent.DrawEvent) (w : World) : Prop :=
  draw e w = None \/ draw e w = Some w.

(** A parsed number outside [lo, hi]. *)
Definition outside (lo hi : Q) (n : JsNumber) : Prop :=
  match n with
  | NaN => False
  | Finite q => (q < lo \/ hi < q)%Q
  | Infinity _ => True
  end.

(** The request of [area], started in [w], has been given up once [T]
    milliseconds have passed: its timer is no longer pending. *)
Definition abortedAfter (T : Z) (area : SelectedArea) (w : World) : Prop :=
  ~ In {| due := now w + delay; callback := areaDataArrived |}
       (timers (runUntil (now w + T) (handleAreaSelection area w))).

(** A node that belongs to the data panel or to the download panel. *)
Definition showsData (n : Node) : bool :=
  hasClass "data-panel" n || hasClass "data-section" n
  || hasClass "download-panel" n || hasClass "download-button" n.

Definition LayerKey_eqb (a b : LayerKey) : bool :=
  match a, b with
  | k_soil, k_soil | k_rainfall, k_rainfall | k_ndvi, k_ndvi => true
  | _, _ => false
  end.

(** The check boxes of a tree: whether each is checked, and the handler
    its change calls. *)
Definition asCheckbox (n : Node) : list (bool * Handler) :=
  match n with
  | Elem "input" [inputType "checkbox"; id _; checked b; onChange h] [] =>
    [(b, h)]
  | _ => []
  end.

Definition checkboxes (n : Node) : list (bool * Handler) :=
  flat_map asCheckbox (descendants n).

(** *** Sample inputs *)

(** A freshly loaded page. *)
Definition freshPage : World :=
  {| app := initialState; now := 0; timers := [] |}.

(** A field drawn inside the sample soil polygons of the schema. *)
Definition field : SelectedArea :=
  {| type := polygon;
     data := JArr [ JArr [JNum 19.1; JNum 72.9]; JArr [JNum 19.1; JNum 73.1];
                    JArr [JNum 19.3; JNum 73.1]; JArr [JNum 19.3; JNum 72.9] ];
     label := None |}.

(** Scenario A: 25 hectares inside one soil polygon of pH 7.2. *)
Definition scenarioA : list Spec.Contribution :=
  [ Spec.mkContribution 1 7.2 "Black Cotton Soil" 25 ].

(** Scenario B: 60% of 25 hectares at pH 6.5 and 40% at pH 7.5. *)
Definition scenarioB : list Spec.Contribution :=
  [ Spec.mkContribution 2 6.5 "Red Soil" 15;
    Spec.mkContribution 3 7.5 "Alluvial Soil" 10 ].

(** Two soil polygons sharing the field half and half. *)
Definition scenarioTie : list Spec.Contribution :=
  [ Spec.mkContribution 2 6.5 "Red Soil" 12.5;
    Spec.mkContribution 1 7.2 "Black Cotton Soil" 12.5 ].

(** Vector data without a rainfall zone, raster data with a tile URL. *)
Definition noRainfall : JsValue :=
  JObj [("soil", JArr (map Spec.feature scenarioA)); ("rainfall", JArr [])].

Definition someRaster : JsValue :=
  JObj [("ndviUrl", JStr "https://storage.example.com/ndvi_20230615.tif")].

(** A polygon drawn across the antimeridian on a repeated world copy. *)
Definition farEast : MapComponent.DrawEvent :=
  {| MapComponent.layerType := "polygon";
     MapComponent.getLatLngs :=
       [[ MapComponent.mkLatLng 19 179; MapComponent.mkLatLng 19 190;
          MapComponent.mkLatLng 20 190; MapComponent.mkLatLng 20 179 ]] |}.

Definition badEntry : LocationSearch.State :=
  {| LocationSearch.searchQuery := "";
     LocationSearch.coordinates :=
       {| LocationSearch.lat := "95"; LocationSearch.lng := "73.2" |} |}.

(** A page in use: another area selected earlier, its request still
    pending, the NDVI layer switched on. *)
Definition busyPage : World :=
  handleAreaSelection
    {| type := polygon; data := JArr []; label := Some "North plot" |}
    {| app := toggleLayer k_ndvi initialState; now := 1200; timers := [] |}.

(** * The rest of the front end *)

(** ** MapComponent.tsx: what the map shows *)

(** JavaScript truthiness, as tested by [!x] and [x && y]. *)
Definition truthy (v : JsValue) : bool :=
  match v with
  | JNull => false
  | JBool b => b
  | JNum q => negb (Qeq_bool q 0)
  | JStr s => negb (String.eqb s "")
  | JArr _ => true
  | JObj _ => true
  end.

Module MapView.

(** The children of the [MapContainer]. *)
Inductive MapElement : Type :=
| TileLayer (attribution : option string) (url : JsValue) (opacity : option Q)
| EditControl (position : string) (draw : list (string * bool))
| Polygon (positions : JsValue) (color : string)
| GeoJSON (data : JsValue) (color : string)
| NumberText (q : Q).

Record MapContainer : Type := mkMapContainer {
  center : Q * Q;
  zoom : Q;
  children : list MapElement
}.

Definition renderSelectedArea (selectedArea : option SelectedArea)
  : list MapElement :=
  match selectedArea with
  | None => []
  | Some a =>
    if AreaType_eqb (type a) polygon then [Polygon (data a) "green"] else []
  end.

(** What React shows for a falsy value left by [&&]: a number is
    printed, [null], [false] and the empty string are not. *)
Definition leftover (v : JsValue) : list MapElement :=
  match v with
  | JNum q => [NumberText q]
  | _ => []
  end.

(** The child [visible && v && <e/>]. *)
Definition guarded (visible : bool) (v : JsValue) (e : MapElement)
  : list MapElement :=
  if visible then (if truthy v then [e] else leftover v) else [].

Definition renderVectorLayers (layerVisibility : LayerVisibility)
                              (vectorData : JsValue) : list MapElement :=
  if negb (truthy vectorData) then []
  else
    guarded (soil layerVisibility) (prop vectorData "soil")
            (GeoJSON (prop vectorData "soil") "#8B4513")
    ++ guarded (rainfall layerVisibility) (prop vectorData "rainfall")
               (GeoJSON (prop vectorData "rainfall") "#0000FF").

Definition renderRasterOverlay (layerVisibility : LayerVisibility)
                               (rasterData : JsValue) : list MapElement :=
  if negb (ndvi layerVisibility) || negb (truthy rasterData)
     || negb (truthy (prop rasterData "ndviUrl"))
  then []
  else [TileLayer None (prop rasterData "ndviUrl") (Some 0.7%Q)].

(** The quotation mark. *)
Definition quote : string := String (Ascii.ascii_of_nat 34) EmptyString.

Definition baseLayer : MapElement :=
  TileLayer
    (Some ("&copy; <a href=" ++ quote
           ++ "https://www.openstreetmap.org/copyright" ++ quote
           ++ ">OpenStreetMap</a> contributors"))
    (JStr "https://{s}.tile.openstreetmap.org/{z}/{x}/{y}.png") None.

Definition drawingTools : MapElement :=
  EditControl "topright"
    [ ("rectangle", false); ("circle", false); ("circlemarker", false);
      ("marker", true); ("polyline", false) ].

Definition MapComponent (center : Q * Q) (zoom : Q)
                        (selectedArea : option SelectedArea)
                        (layerVisibility : LayerVisibility)
                        (vectorData rasterData : JsValue) : MapContainer :=
  {| center := center;
     zoom := zoom;
     children :=
       [baseLayer; drawingTools]
       ++ renderSelectedArea selectedArea
       ++ renderVectorLayers layerVisibility vectorData
       ++ renderRasterOverlay layerVisibility rasterData |}.

(** A vector layer, the raster overlay, or a stray number. *)
Definition isDataLayer (e : MapElement) : bool :=
  match e with
  | GeoJSON _ _ => true
  | TileLayer None _ _ => true
  | NumberText _ => true
  | _ => false
  end.

Definition isVectorLayer (color : string) (e : MapElement) : bool :=
  match e with
  | GeoJSON _ c => String.eqb c color
  | _ => false
  end.

Definition isOverlay (e : MapElement) : bool :=
  match e with
  | TileLayer None _ _ => true
  | _ => false
  end.

(** The map has a vector layer drawn in [color]. *)
Definition hasVectorLayer (color : string) (m : MapContainer) : bool :=
  existsb (isVectorLayer color) (children m).

(** The map has a raster overlay on top of its base tiles. *)
Definition hasOverlay (m : MapContainer) : bool :=
  existsb isOverlay (children m).

End MapView.

(** ** App.tsx: the page as a whole *)

(** The map as [MainApp] renders it from its state. *)
Definition mapOf (s : AppState) : MapView.MapContainer :=
  MapView.MapComponent (mapCenter s) (mapZoom s) (selectedArea s)
                       (layerVisibility s) (vectorData s) (rasterData s).

(** What the user can do to the page, and the passing of time. *)
Inductive Event : Type :=
| Toggle (layer : LayerKey)
| Draw (e : MapComponent.DrawEvent)
| Tick (t : Z).

(** A handler that throws leaves the state as it was. *)
Definition step (w : World) (ev : Event) : World :=
  match ev with
  | Toggle layer => update (toggleLayer layer) w
  | Draw e =>
    match draw e w with
    | Some w' => w'
    | None => w
    end
  | Tick t => runUntil t w
  end.

Definition run (events : list Event) (w : World) : World :=
  fold_left step events w.

(** [n] changes of the check box of a layer. *)
Fixpoint toggles (n : nat) (layer : LayerKey) (s : AppState) : AppState :=
  match n with
  | O => s
  | S n' => toggles n' layer (toggleLayer layer s)
  end.

(** The area that a drawn ring becomes. *)
Definition areaOfRing (ring : list MapComponent.LatLng) : SelectedArea :=
  {| type := polygon;
     data := JArr (map MapComponent.pair ring);
     label := None |}.

(** ** LocationSearch.tsx: the inputs as shown *)

Fixpoint valueOf (attrs : list Attr) : option string :=
  match attrs with
  | [] => None
  | value s :: _ => Some s
  | _ :: rest => valueOf rest
  end.

Fixpoint placeholderOf (attrs : list Attr) : option string :=
  match attrs with
  | [] => None
  | placeholder s :: _ => Some s
  | _ :: rest => placeholderOf rest
  end.

(** An input read as its placeholder and the value it shows. *)
Definition asInput (n : Node) : list (string * string) :=
  match n with
  | Elem "input" attrs _ =>
    match placeholderOf attrs, valueOf attrs with
    | Some p, Some v => [(p, v)]
    | _, _ => []
    end
  | _ => []
  end.

Definition inputs (n : Node) : list (string * string) :=
  flat_map asInput (descendants n).

(** A parsed number within [lo, hi]. *)
Definition within (lo hi : Q) (n : JsNumber) : Prop :=
  match n with
  | Finite q => (lo <= q)%Q /\ (q <= hi)%Q
  | _ => False
  end.

(** What holds of the page whatever the user has done so far. *)
Definition wellFormed (w : World) : Prop :=
  ((vectorData (app w), rasterData (app w)) = (JNull, JNull)
   \/ (vectorData (app w), rasterData (app w)) = (JObj [], JObj []))
  /\ Forall (fun tm => due tm <= now w + delay) (timers w)
  /\ (isLoading (app w) = true -> timers w <> [])
  /\ (selectedArea (app w) = None
      \/ exists ring, selectedArea (app w) = Some (areaOfRing ring))
  /\ (mapCenter (app w), mapZoom (app w))
     = (mapCenter initialState, mapZoom initialState).

(** The first ring of a polygon event, if the event selects an area. *)
Definition drawnRing (ev : Event) : option (list MapComponent.LatLng) :=
  match ev with
  | Draw e =>
    if String.eqb (MapComponent.layerType e) "polygon"
    then hd_error (MapComponent.getLatLngs e)
    else None
  | _ => None
  end.

(** The ring selected last in a run of events. *)
Fixpoint lastDrawn (events : list Event) (prior : option (list MapComponent.LatLng))
  : option (list MapComponent.LatLng) :=
  match events with
  | [] => prior
  | ev :: rest =>
    lastDrawn rest (match drawnRing ev with
                    | Some ring => Some ring
                    | None => prior
                    end)
  end.

(** ** The account pages: shared types *)

(** What awaiting a promise gives: its value, or the message of the
    error it was rejected with. *)
Inductive Reply (A : Type) : Type :=
| Thrown (message : string)
| Got (a : A).
Arguments Thrown {A} message.
Arguments Got {A} a.

(** A call of [fetch]. *)
Record Request : Type := mkRequest {
  url : string;
  method : string;
  headers : list (string * string);
  body : list (string * string)
}.

(** [`Bearer ${token}`]; a null token is spelled out. *)
Definition bearer (token : option string) : string :=
  "Bearer " ++ match token with
               | Some t => t
               | None => "null"
               end.

(** [!!token]: a token that is neither null nor empty. *)
Definition hasToken (token : option string) : bool :=
  match token with
  | Some t => negb (String.eqb t "")
  | None => false
  end.

(** [`Error: ${response.status}`] *)
Definition statusMessage (status : Z) : string :=
  "Error: " ++ NilZero.string_of_int (Z.to_int status).

(** [s || fallback] on an optional string. *)
Definition orElse (s : option string) (fallback : string) : string :=
  match s with
  | Some t => if String.eqb t "" then fallback else t
  | None => fallback
  end.

(** An element tree whose attributes are name-value pairs; [H] is the
    type of what its event handlers do. *)
Inductive AttrValue (H : Type) : Type :=
| AStr (s : string)
| ABool (b : bool)
| ADo (h : H).
Arguments AStr {H} s.
Arguments ABool {H} b.
Arguments ADo {H} h.

Inductive Html (H : Type) : Type :=
| HText (s : string)
| HNum (n : Z)
| HElem (tag : string) (attrs : list (string * AttrValue H))
        (children : list (Html H)).
Arguments HText {H} s.
Arguments HNum {H} n.
Arguments HElem {H} tag attrs children.

(** [<tag className=c>children</tag>] *)
Definition classed {H : Type} (tag c : string) (children : list (Html H))
  : Html H :=
  HElem tag [("className", AStr c)] children.

(** A node and everything below it, in document order. *)
Fixpoint nodes {H : Type} (n : Html H) : list (Html H) :=
  n :: match n with
       | HElem _ _ children => flat_map nodes children
       | _ => []
       end.

(** The handlers attached anywhere in a tree. *)
Definition handlersOf {H : Type} (n : Html H) : list H :=
  flat_map (fun m => match m with
                     | HElem _ attrs _ =>
                       flat_map (fun a => match snd a with
                                          | ADo h => [h]
                                          | _ => []
                                          end) attrs
                     | _ => []
                     end)
           (nodes n).

(** The text anywhere in a tree. *)
Definition textsOf {H : Type} (n : Html H) : list string :=
  flat_map (fun m => match m with
                     | HText s => [s]
                     | _ => []
                     end)
           (nodes n).

(** ** UserProfile.tsx *)

Module UserProfile.

(** [interface UserData] *)
Record UserData : Type := mkUserData {
  id : string;
  username : string;
  email : string;
  full_name : option string;
  is_active : bool;
  is_admin : bool
}.

(** The form; [form_full_name] and [form_email] are its [full_name] and
    [email]. *)
Record FormData : Type := mkFormData {
  form_full_name : string;
  form_email : string;
  current_password : string;
  new_password : string;
  confirm_password : string
}.

Record State : Type := mkState {
  userData : option UserData;
  loading : bool;
  error : option string;
  editMode : bool;
  formData : FormData;
  updateMessage : option string
}.

(** The arguments of the [useState] calls. *)
Definition initial : State :=
  {| userData := None;
     loading := true;
     error := None;
     editMode := false;
     formData := {| form_full_name := ""; form_email := "";
                    current_password := ""; new_password := "";
                    confirm_password := "" |};
     updateMessage := None |}.

Definition setUserData (u : option UserData) (st : State) : State :=
  {| userData := u; loading := loading st; error := error st;
     editMode := editMode st; formData := formData st;
     updateMessage := updateMessage st |}.

Definition setLoading (b : bool) (st : State) : State :=
  {| userData := userData st; loading := b; error := error st;
     editMode := editMode st; formData := formData st;
     updateMessage := updateMessage st |}.

Definition setError (e : option string) (st : State) : State :=
  {| userData := userData st; loading := loading st; error := e;
     editMode := editMode st; formData := formData st;
     updateMessage := updateMessage st |}.

Definition setEditMode (b : bool) (st : State) : State :=
  {| userData := userData st; loading := loading st; error := error st;
     editMode := b; formData := formData st;
     updateMessage := updateMessage st |}.

Definition setFormData (f : FormData -> FormData) (st : State) : State :=
  {| userData := userData st; loading := loading st; error := error st;
     editMode := editMode st; formData := f (formData st);
     updateMessage := updateMessage st |}.

Definition setUpdateMessage (m : option string) (st : State) : State :=
  {| userData := userData st; loading := loading st; error := error st;
     editMode := editMode st; formData := formData st;
     updateMessage := m |}.

(** The server's answer to a request for the user record: a response
    that is [ok] with the body that [json()] gives, or a response that
    is not, with its status and the [detail] of its body, absent when
    falsy. *)
Inductive Response : Type :=
| Success (json : Reply UserData)
| Failure (status : Z) (detail : Reply (option string)).

Definition Fetch : Type := Request -> Reply Response.

Definition endpoint : string := "http://localhost:8000/users/me".

(** The request of [fetchUserData]. *)
Definition getRequest (token : option string) : Request :=
  {| url := endpoint; method := "GET";
     headers := [("Authorization", bearer token)]; body := [] |}.

(** [prev => ({ ...prev, full_name: data.full_name || '',
    email: data.email || '' })] *)
Definition fillForm (data : UserData) (prev : FormData) : FormData :=
  {| form_full_name := orElse (full_name data) "";
     form_email := orElse (Some (email data)) "";
     current_password := current_password prev;
     new_password := new_password prev;
     confirm_password := confirm_password prev |}.

(** The effect that loads the user record; it returns the new state and
    the requests sent. *)
Definition fetchUserData (token : option string) (fetch : Fetch) (st : State)
  : State * list Request :=
  if negb (hasToken token) then (st, [])
  else
    let request := getRequest token in
    ( match fetch request with
      | Got (Success (Got data)) =>
        setLoading false (setFormData (fillForm data)
                                      (setUserData (Some data) st))
      | Got (Success (Thrown message)) =>
        setLoading false (setError (Some message) st)
      | Got (Failure status _) =>
        setLoading false (setError (Some (statusMessage status)) st)
      | Thrown message =>
        setLoading false (setError (Some message) st)
      end,
      [request] ).

(** The [name] of an input that calls [handleInputChange]. *)
Inductive Field : Type :=
| f_full_name | f_email | f_current_password | f_new_password
| f_confirm_password.

(** [prev => ({ ...prev, [name]: value })] *)
Definition setField (name : Field) (v : string) (prev : FormData) : FormData :=
  match name with
  | f_full_name =>
    {| form_full_name := v; form_email := form_email prev;
       current_password := current_password prev;
       new_password := new_password prev;
       confirm_password := confirm_password prev |}
  | f_email =>
    {| form_full_name := form_full_name prev; form_email := v;
       current_password := current_password prev;
       new_password := new_password prev;
       confirm_password := confirm_password prev |}
  | f_current_password =>
    {| form_full_name := form_full_name prev; form_email := form_email prev;
       current_password := v;
       new_password := new_password prev;
       confirm_password := confirm_password prev |}
  | f_new_password =>
    {| form_full_name := form_full_name prev; form_email := form_email prev;
       current_password := current_password prev;
       new_password := v;
       confirm_password := confirm_password prev |}
  | f_confirm_password =>
    {| form_full_name := form_full_name prev; form_email := form_email prev;
       current_password := current_password prev;
       new_password := new_password prev;
       confirm_password := v |}
  end.

Definition handleInputChange (name : Field) (v : string) (st : State) : State :=
  setFormData (setField name v) st.

(** [prev => ({ ...prev, current_password: '', new_password: '',
    confirm_password: '' })] *)
Definition clearPasswords (prev : FormData) : FormData :=
  {| form_full_name := form_full_name prev; form_email := form_email prev;
     current_password := ""; new_password := ""; confirm_password := "" |}.

Definition nonEmpty (s : string) : bool := negb (String.eqb s "").

(** [formData.full_name !== userData?.full_name] *)
Definition fullNameDiffers (f : FormData) (u : option UserData) : bool :=
  match u with
  | Some data =>
    match full_name data with
    | Some s => negb (String.eqb (form_full_name f) s)
    | None => true
    end
  | None => true
  end.

(** [formData.email !== userData?.email] *)
Definition emailDiffers (f : FormData) (u : option UserData) : bool :=
  match u with
  | Some data => negb (String.eqb (form_email f) (email data))
  | None => true
  end.

(** The object [updateData], field by field in the order it is filled. *)
Definition updateData (f : FormData) (u : option UserData)
  : list (string * string) :=
  (if fullNameDiffers f u then [("full_name", form_full_name f)] else [])
  ++ (if emailDiffers f u then [("email", form_email f)] else [])
  ++ (if nonEmpty (new_password f)
      then [ ("current_password", current_password f);
             ("new_password", new_password f) ]
      else []).

Definition patchRequest (token : option string)
                        (data : list (string * string)) : Request :=
  {| url := endpoint; method := "PATCH";
     headers := [ ("Content-Type", "application/json");
                  ("Authorization", bearer token) ];
     body := data |}.

Definition handleSubmit (token : option string) (fetch : Fetch) (st : State)
  : State * list Request :=
  let st0 := setUpdateMessage None st in
  let f := formData st in
  if nonEmpty (new_password f) && negb (nonEmpty (current_password f)) then
    (setError (Some "Current password is required to set a new password") st0,
     [])
  else if nonEmpty (new_password f)
          && negb (String.eqb (new_password f) (confirm_password f)) then
    (setError (Some "New passwords do not match") st0, [])
  else
    match updateData f (userData st) with
    | [] =>
      (setError None
         (setEditMode false
            (setUpdateMessage (Some "No changes to update") st0)),
       [])
    | data =>
      let request := patchRequest token data in
      ( match fetch request with
        | Got (Success (Got updatedUser)) =>
          setError None
            (setEditMode false
               (setFormData clearPasswords
                  (setUpdateMessage (Some "Profile updated successfully")
                     (setUserData (Some updatedUser) st0))))
        | Got (Success (Thrown message)) => setError (Some message) st0
        | Got (Failure status (Got detail)) =>
          setError (Some (match detail with
                          | Some d => d
                          | None => statusMessage status
                          end)) st0
        | Got (Failure status (Thrown message)) =>
          setError (Some message) st0
        | Thrown message => setError (Some message) st0
        end,
        [request] )
    end.

(** The handler of the Cancel button. *)
Definition cancel (st : State) : State :=
  setFormData
    (fun prev =>
       {| form_full_name :=
            orElse (match userData st with
                    | Some u => full_name u
                    | None => None
                    end) "";
          form_email := orElse (option_map email (userData st)) "";
          current_password := ""; new_password := "";
          confirm_password := "" |})
    (setError None (setEditMode false st)).

(** What the handlers of the rendered page do. *)
Inductive Action : Type :=
| EnterEdit
| Logout
| Submit
| Change (name : Field)
| Cancel.

(** A text child; the empty string shows nothing. *)
Definition text (s : string) : list (Html Action) :=
  if String.eqb s "" then [] else [HText s].

(** [c.toUpperCase()] on an ASCII character. *)
Definition upper (c : ascii) : ascii :=
  let n := nat_of_ascii c in
  if (97 <=? n)%nat && (n <=? 122)%nat then ascii_of_nat (n - 32) else c.

(** [s.charAt(0).toUpperCase()] *)
Definition initialOf (s : string) : string :=
  match s with
  | EmptyString => ""
  | String c _ => String (upper c) ""
  end.

Definition truthyText (s : option string) : bool :=
  match s with
  | Some t => nonEmpty t
  | None => false
  end.

Definition detailItem (name : string) (valueNode : Html Action) : Html Action :=
  classed "div" "detail-item"
    [classed "span" "detail-label" [HText name]; valueNode].

Definition profileView (st : State) : Html Action :=
  let u := userData st in
  let isAdmin := match u with Some d => is_admin d | None => false end in
  let isActive := match u with Some d => is_active d | None => false end in
  classed "div" "profile-view"
    [classed "div" "profile-card"
       ( [ classed "div" "profile-header"
             [ classed "div" "profile-avatar"
                 (match u with
                  | Some d => text (initialOf (username d))
                  | None => []
                  end);
               classed "div" "profile-title"
                 [ HElem "h2" []
                     (match u with
                      | Some d => text (username d)
                      | None => []
                      end);
                   classed "span"
                     ("role-badge " ++ if isAdmin then "admin" else "user")
                     [HText (if isAdmin then "Administrator" else "User")] ] ];
           classed "div" "profile-details"
             [ detailItem "Full Name:"
                 (classed "span" "detail-value"
                    [HText (orElse (match u with
                                    | Some d => full_name d
                                    | None => None
                                    end) "Not provided")]);
               detailItem "Email:"
                 (classed "span" "detail-value"
                    (match u with
                     | Some d => text (email d)
                     | None => []
                     end));
               detailItem "Account Status:"
                 (classed "span"
                    ("status-badge " ++ if isActive then "active" else "inactive")
                    [HText (if isActive then "Active" else "Inactive")]) ] ]
         ++ (if truthyText (updateMessage st)
             then [classed "div" "update-message success"
                     (text (orElse (updateMessage st) ""))]
             else [])
         ++ [ classed "div" "profile-actions"
                [ HElem "button" [ ("className", AStr "edit-profile-btn");
                                   ("onClick", ADo EnterEdit) ]
                        [HText "Edit Profile"];
                  HElem "button" [ ("className", AStr "logout-btn");
                                   ("onClick", ADo Logout) ]
                        [HText "Logout"] ] ] )].

Definition formGroup (children : list (Html Action)) : Html Action :=
  classed "div" "form-group" children.

Definition fieldInput (kind ident : string) (name : Field) (v : string)
                      (more : list (string * AttrValue Action)) : Html Action :=
  HElem "input"
    ([ ("type", AStr kind); ("id", AStr ident); ("name", AStr ident);
       ("value", AStr v); ("onChange", ADo (Change name)) ] ++ more) [].

Definition profileEdit (st : State) : Html Action :=
  let f := formData st in
  classed "div" "profile-edit"
    [classed "div" "profile-card"
       ( [HElem "h2" [] [HText "Edit Profile"]]
         ++ (if truthyText (error st)
             then [classed "div" "update-message error"
                     (text (orElse (error st) ""))]
             else [])
         ++ [ HElem "form" [("onSubmit", ADo Submit)]
                [ formGroup
                    [ HElem "label" [("htmlFor", AStr "username")]
                            [HText "Username"];
                      HElem "input"
                        [ ("type", AStr "text"); ("id", AStr "username");
                          ("value",
                           AStr (orElse (option_map username (userData st)) ""));
                          ("disabled", ABool true) ] [];
                      HElem "small" [] [HText "Username cannot be changed"] ];
                  formGroup
                    [ HElem "label" [("htmlFor", AStr "full_name")]
                            [HText "Full Name"];
                      fieldInput "text" "full_name" f_full_name
                                 (form_full_name f) [] ];
                  formGroup
                    [ HElem "label" [("htmlFor", AStr "email")]
                            [HText "Email"];
                      fieldInput "email" "email" f_email (form_email f)
                                 [("required", ABool true)] ];
                  HElem "h3" [] [HText "Change Password"];
                  formGroup
                    [ HElem "label" [("htmlFor", AStr "current_password")]
                            [HText "Current Password"];
                      fieldInput "password" "current_password"
                                 f_current_password (current_password f) [] ];
                  formGroup
                    [ HElem "label" [("htmlFor", AStr "new_password")]
                            [HText "New Password"];
                      fieldInput "password" "new_password" f_new_password
                                 (new_password f) [] ];
                  formGroup
                    [ HElem "label" [("htmlFor", AStr "confirm_password")]
                            [HText "Confirm New Password"];
                      fieldInput "password" "confirm_password"
                                 f_confirm_password (confirm_password f) [] ];
                  classed "div" "form-actions"
                    [ HElem "button" [ ("type", AStr "submit");
                                       ("className", AStr "save-btn") ]
                            [HText "Save Changes"];
                      HElem "button" [ ("type", AStr "button");
                                       ("className", AStr "cancel-btn");
                                       ("onClick", ADo Cancel) ]
                            [HText "Cancel"] ] ] ] )].

Definition render (st : State) : Html Action :=
  if loading st then
    classed "div" "profile-loading" [HText "Loading profile..."]
  else if truthyText (error st) && negb (editMode st) then
    classed "div" "profile-error"
      (HText "Error: " :: text (orElse (error st) ""))
  else
    classed "div" "user-profile"
      [ HElem "h1" [] [HText "User Profile"];
        if negb (editMode st) then profileView st else profileEdit st ].

(** What an action of the page does to its state; [Logout] belongs to
    the authentication context and leaves this state alone. *)
Definition act (token : option string) (fetch : Fetch)
               (a : Action) (v : string) (st : State) : State :=
  match a with
  | EnterEdit => setEditMode true st
  | Logout => st
  | Submit => fst (handleSubmit token fetch st)
  | Change name => handleInputChange name v st
  | Cancel => cancel st
  end.

End UserProfile.

(** *** Sample inputs for the profile page *)

Definition sampleUser : UserProfile.UserData :=
  {| UserProfile.id := "7";
     UserProfile.username := "asha";
     UserProfile.email := "asha@example.com";
     UserProfile.full_name := None;
     UserProfile.is_active := true;
     UserProfile.is_admin := false |}.

(** A server that answers every request with the sample user. *)
Definition agreeingServer : UserProfile.Fetch :=
  fun _ => Got (UserProfile.Success (Got sampleUser)).

(** A server that refuses every request. *)
Definition refusingServer : UserProfile.Fetch :=
  fun _ => Got (UserProfile.Failure 401 (Got (Some "Incorrect password"))).

(** The profile page with the sample user loaded and a password change
    typed in without the current password. *)
Definition halfFilled : UserProfile.State :=
  UserProfile.handleInputChange UserProfile.f_new_password "s3cret"
    (UserProfile.setEditMode true
       (fst (UserProfile.fetchUserData (Some "tok") agreeingServer
                                       UserProfile.initial))).

(** The same with the change filled in properly. *)
Definition wellFilled : UserProfile.State :=
  UserProfile.handleInputChange UserProfile.f_confirm_password "s3cret"
    (UserProfile.handleInputChange UserProfile.f_current_password "old"
       halfFilled).

(** ** AuthContext.tsx *)

Module Auth.

(** [interface User] *)
Record User : Type := mkUser {
  username : string;
  email : option string;
  full_name : option string;
  is_admin : option bool
}.

(** The state of [AuthProvider] together with the [token] entry of
    [localStorage]. *)
Record State : Type := mkState {
  user : option User;
  token : option string;
  isLoading : bool;
  stored : option string
}.

(** The arguments of the [useState] calls, for a given stored token. *)
Definition initial (storedToken : option string) : State :=
  {| user := None; token := storedToken; isLoading := true;
     stored := storedToken |}.

Definition login (newToken : string) (st : State) : State :=
  {| user := user st; token := Some newToken; isLoading := isLoading st;
     stored := Some newToken |}.

Definition logout (st : State) : State :=
  {| user := None; token := None; isLoading := isLoading st;
     stored := None |}.

Definition setIsLoading (b : bool) (st : State) : State :=
  {| user := user st; token := token st; isLoading := b;
     stored := stored st |}.

Definition setUser (u : option User) (st : State) : State :=
  {| user := u; token := token st; isLoading := isLoading st;
     stored := stored st |}.

(** [isAuthenticated: !!token] *)
Definition isAuthenticated (st : State) : bool := hasToken (token st).

(** The server's answer on [/auth/me]: a response that is [ok], with
    the body that [json()] gives, or one that is not. *)
Inductive Response : Type :=
| Ok (json : Reply User)
| NotOk.

Definition Fetch : Type := Request -> Reply Response.

Definition meRequest (t : option string) : Request :=
  {| url := "http://localhost:8000/auth/me"; method := "GET";
     headers := [("Authorization", bearer t)]; body := [] |}.

(** The effect [fetchUser]: the new state, the requests sent and the
    messages of the errors passed to [console.error]. *)
Definition fetchUser (fetch : Fetch) (st : State)
  : State * list Request * list string :=
  if negb (hasToken (token st)) then (setIsLoading false st, [], [])
  else
    let request := meRequest (token st) in
    match fetch request with
    | Got (Ok (Got userData)) =>
      (setIsLoading false (setUser (Some userData) st), [request], [])
    | Got (Ok (Thrown message)) =>
      (setIsLoading false (logout st), [request], [message])
    | Got NotOk =>
      (setIsLoading false (logout st), [request], ["Failed to fetch user"])
    | Thrown message =>
      (setIsLoading false (logout st), [request], [message])
    end.

(** What can happen to the provider: its two functions are called, or
    its effect runs to the end. *)
Inductive Step : Type :=
| Login (newToken : string)
| Logout
| Settle.

Definition step (fetch : Fetch) (st : State) (s : Step) : State :=
  match s with
  | Login newToken => login newToken st
  | Logout => logout st
  | Settle => fst (fst (fetchUser fetch st))
  end.

Definition run (fetch : Fetch) (steps : list Step) (st : State) : State :=
  fold_left (step fetch) steps st.

End Auth.

(** ** ProtectedRoute.tsx *)

(** [!user?.is_admin] negated: the user is there and is an admin. *)
Definition isAdmin (u : option Auth.User) : bool :=
  match u with
  | Some d =>
    match Auth.is_admin d with
    | Some b => b
    | None => false
    end
  | None => false
  end.

Definition navigate (to : string) : Html unit :=
  HElem "Navigate" [("to", AStr to); ("replace", ABool true)] [].

Definition outlet : Html unit := HElem "Outlet" [] [].

Definition ProtectedRoute (requireAdmin : bool) (auth : Auth.State)
  : Html unit :=
  if Auth.isLoading auth then
    classed "div" "loading-container"
      [ classed "div" "loading-spinner" [];
        HElem "p" [] [HText "Loading..."] ]
  else if negb (Auth.isAuthenticated auth) then navigate "/login"
  else if requireAdmin && negb (isAdmin (Auth.user auth)) then
    navigate "/unauthorized"
  else outlet.

(** ** AdminDashboard.tsx *)

Module AdminDashboard.

(** [interface User] *)
Record User : Type := mkUser {
  id : string;
  username : string;
  email : string;
  is_active : bool;
  is_admin : bool
}.

Record State : Type := mkState {
  users : list User;
  loading : bool;
  error : option string
}.

Definition initial : State :=
  {| users := []; loading := true; error := None |}.

Definition setUsers (l : list User) (st : State) : State :=
  {| users := l; loading := loading st; error := error st |}.

Definition setLoading (b : bool) (st : State) : State :=
  {| users := users st; loading := b; error := error st |}.

Definition setError (e : option string) (st : State) : State :=
  {| users := users st; loading := loading st; error := e |}.

(** The server's answer: a response that is [ok], with the list that
    [json()] gives (read by [fetchUsers] only), or one that is not,
    with its status. *)
Inductive Response : Type :=
| Accepted (json : Reply (list User))
| Refused (status : Z).

Definition Fetch : Type := Request -> Reply Response.

Definition listRequest (token : option string) : Request :=
  {| url := "http://localhost:8000/users/"; method := "GET";
     headers := [("Authorization", bearer token)]; body := [] |}.

Definition fetchUsers (token : option string) (fetch : Fetch) (st : State)
  : State * list Request :=
  let request := listRequest token in
  ( match fetch request with
    | Got (Accepted (Got data)) => setLoading false (setUsers data st)
    | Got (Accepted (Thrown message)) =>
      setLoading false (setError (Some message) st)
    | Got (Refused status) =>
      setLoading false (setError (Some (statusMessage status)) st)
    | Thrown message => setLoading false (setError (Some message) st)
    end,
    [request] ).

Definition boolText (b : bool) : string := if b then "true" else "false".

Definition statusRequest (token : option string) (userId : string)
                         (isActive : bool) : Request :=
  {| url := "http://localhost:8000/users/" ++ userId; method := "PATCH";
     headers := [ ("Content-Type", "application/json");
                  ("Authorization", bearer token) ];
     body := [("is_active", boolText (negb isActive))] |}.

(** [user => user.id === userId ? { ...user, is_active: !isActive } : user] *)
Definition withStatus (userId : string) (isActive : bool) (u : User) : User :=
  if String.eqb (id u) userId
  then {| id := id u; username := username u; email := email u;
          is_active := negb isActive; is_admin := is_admin u |}
  else u.

Definition toggleUserStatus (token : option string) (fetch : Fetch)
                            (userId : string) (isActive : bool) (st : State)
  : State * list Request :=
  let request := statusRequest token userId isActive in
  ( match fetch request with
    | Got (Accepted _) =>
      setUsers (map (withStatus userId isActive) (users st)) st
    | Got (Refused status) => setError (Some (statusMessage status)) st
    | Thrown message => setError (Some message) st
    end,
    [request] ).

Definition deleteRequest (token : option string) (userId : string) : Request :=
  {| url := "http://localhost:8000/users/" ++ userId; method := "DELETE";
     headers := [("Authorization", bearer token)]; body := [] |}.

(** [confirmed] is the answer to [window.confirm]. *)
Definition deleteUser (confirmed : bool) (token : option string)
                      (fetch : Fetch) (userId : string) (st : State)
  : State * list Request :=
  if negb confirmed then (st, [])
  else
    let request := deleteRequest token userId in
    ( match fetch request with
      | Got (Accepted _) =>
        setUsers (filter (fun u => negb (String.eqb (id u) userId))
                         (users st)) st
      | Got (Refused status) => setError (Some (statusMessage status)) st
      | Thrown message => setError (Some message) st
      end,
      [request] ).

(** What the buttons of a row do. *)
Inductive Action : Type :=
| ToggleUserStatus (userId : string) (isActive : bool)
| DeleteUser (userId : string).

Definition cell (children : list (Html Action)) : Html Action :=
  HElem "td" [] children.

Definition text (s : string) : list (Html Action) :=
  if String.eqb s "" then [] else [HText s].

Definition userRow (u : User) : Html Action :=
  HElem "tr" [("key", AStr (id u))]
    [ cell (text (username u));
      cell (text (email u));
      cell [classed "span"
              ("status-badge " ++ if is_active u then "active" else "inactive")
              [HText (if is_active u then "Active" else "Inactive")]];
      cell [classed "span"
              ("role-badge " ++ if is_admin u then "admin" else "user")
              [HText (if is_admin u then "Admin" else "User")]];
      classed "td" "action-buttons"
        [ HElem "button"
            [ ("className",
               AStr (if is_active u then "deactivate-btn" else "activate-btn"));
              ("onClick", ADo (ToggleUserStatus (id u) (is_active u))) ]
            [HText (if is_active u then "Deactivate" else "Activate")];
          HElem "button"
            [ ("className", AStr "delete-btn");
              ("onClick", ADo (DeleteUser (id u))) ]
            [HText "Delete"] ] ].

Definition statCard (title : string) (n : nat) : Html Action :=
  classed "div" "stat-card"
    [HElem "h3" [] [HText title]; HElem "p" [] [HNum (Z.of_nat n)]].

Definition truthyText (s : option string) : bool :=
  match s with
  | Some t => negb (String.eqb t "")
  | None => false
  end.

Definition render (st : State) : Html Action :=
  if loading st then classed "div" "admin-loading" [HText "Loading users..."]
  else if truthyText (error st) then
    classed "div" "admin-error"
      (HText "Error: " :: text (orElse (error st) ""))
  else
    classed "div" "admin-dashboard"
      [ HElem "h1" [] [HText "Admin Dashboard"];
        classed "div" "admin-stats"
          [ statCard "Total Users" (List.length (users st));
            statCard "Active Users"
                     (List.length (filter is_active (users st)));
            statCard "Admins" (List.length (filter is_admin (users st))) ];
        HElem "h2" [] [HText "User Management"];
        classed "div" "user-table-container"
          [classed "table" "user-table"
             [ HElem "thead" []
                 [HElem "tr" []
                    [ HElem "th" [] [HText "Username"];
                      HElem "th" [] [HText "Email"];
                      HElem "th" [] [HText "Status"];
                      HElem "th" [] [HText "Role"];
                      HElem "th" [] [HText "Actions"] ]];
               HElem "tbody" [] (map userRow (users st)) ]] ].

(** What the administrator can do, and the reload of the list. *)
Inductive Step : Type :=
| Reload
| Click (a : Action) (confirmed : bool).

Definition step (token : option string) (fetch : Fetch)
                (st : State) (s : Step) : State :=
  match s with
  | Reload => fst (fetchUsers token fetch st)
  | Click (ToggleUserStatus userId isActive) _ =>
    fst (toggleUserStatus token fetch userId isActive st)
  | Click (DeleteUser userId) confirmed =>
    fst (deleteUser confirmed token fetch userId st)
  end.

Definition run (token : option string) (fetch : Fetch)
               (steps : list Step) (st : State) : State :=
  fold_left (step token fetch) steps st.

End AdminDashboard.

(** *** Sample inputs for the account pages *)

Definition adminUser : Auth.User :=
  {| Auth.username := "asha"; Auth.email := Some "asha@example.com";
     Auth.full_name := None; Auth.is_admin := Some true |}.

(** A server that knows no token. *)
Definition strictServer : Auth.Fetch := fun _ => Got Auth.NotOk.

(** A provider that has settled without a stored token. *)
Definition loggedOut : Auth.State :=
  fst (fst (Auth.fetchUser strictServer (Auth.initial None))).

Definition ravi : AdminDashboard.User :=
  AdminDashboard.mkUser "2" "ravi" "ravi@example.com" false false.

Definition twoUsers : list AdminDashboard.User :=
  [ AdminDashboard.mkUser "1" "asha" "asha@example.com" true true; ravi ].

(** A server that accepts every request of the dashboard. *)
Definition grantingServer : AdminDashboard.Fetch :=
  fun _ => Got (AdminDashboard.Accepted (Got twoUsers)).

(** A server that refuses every request of the dashboard. *)
Definition denyingServer : AdminDashboard.Fetch :=
  fun _ => Got (AdminDashboard.Refused 403).

(** The dashboard with the two users listed. *)
Definition listed : AdminDashboard.State :=
  fst (AdminDashboard.fetchUsers (Some "tok") grantingServer
                                 AdminDashboard.initial).

(** The dashboard after the server has refused a status toggle. *)
Definition refusedOnce : AdminDashboard.State :=
  fst (AdminDashboard.toggleUserStatus (Some "tok") denyingServer "1" true
                                       listed).

(** Splits a selected area into the cases its rendering depends on: its
    type, and whether it has a label and the label is empty. *)
Ltac area_cases area :=
  destruct area as [[ | | ] ? [[ | ? ? ] | ]].

(** * Properties *)

(** ** The data panel *)

(** The name-value rows of the panel are the same for every area. *)
Lemma DataPanel_entries (area : SelectedArea) (vd rd : JsValue) :
  option_map entries (DataPanel (Some area) vd rd)
  = Some [ ("Soil Type:", Text "Alluvial"); ("pH Level:", Num 6.8);
           ("Organic Matter:", Text "2.3%"); ("Nitrogen:", Text "Medium");
           ("Phosphorus:", Text "Low"); ("Potassium:", Text "High");
           ("Annual Average:", Text "1200mm");
           ("Monsoon Average:", Text "850mm");
           ("Dry Season Average:", Text "120mm");
           ("Rainfall Zone:", Text "High Rainfall Zone") ].
Proof. area_cases area; reflexivity. Qed.

Lemma DataPanel_headings (area : SelectedArea) (vd rd : JsValue) :
  option_map headings (DataPanel (Some area) vd rd)
  = Some ["Soil Data"; "Rainfall Data"; "Crop Suitability"].
Proof. area_cases area; reflexivity. Qed.

Lemma DataPanel_reportedNumber (area : SelectedArea) (vd rd : JsValue)
                               (name : string) :
  reportedNumber name (DataPanel (Some area) vd rd)
  = if String.eqb name "pH Level:" then Some 6.8%Q else None.
Proof.
  pose proof (DataPanel_entries area vd rd) as E.
  unfold reportedNumber.
  destruct (DataPanel (Some area) vd rd) as [n | ]; [ | discriminate E].
  injection E as ->.
  destruct (String.eqb_spec name "pH Level:") as [-> | Hne]; [reflexivity | ].
  apply String.eqb_neq in Hne. cbn [lookup]. rewrite Hne.
  repeat match goal with
         | |- context [String.eqb name ?k] => destruct (String.eqb name k)
         end; reflexivity.
Qed.

Lemma DataPanel_reportedText_soil_type (area : SelectedArea) (vd rd : JsValue) :
  reportedText "Soil Type:" (DataPanel (Some area) vd rd) = Some "Alluvial".
Proof.
  pose proof (DataPanel_entries area vd rd) as E.
  unfold reportedText.
  destruct (DataPanel (Some area) vd rd) as [n | ]; [ | discriminate E].
  injection E as ->. reflexivity.
Qed.

Lemma DataPanel_rainfall_section (area : SelectedArea) (vd rd : JsValue) :
  option_map (sectionEntries "Rainfall Data") (DataPanel (Some area) vd rd)
  = Some [ ("Annual Average:", Text "1200mm");
           ("Monsoon Average:", Text "850mm");
           ("Dry Season Average:", Text "120mm");
           ("Rainfall Zone:", Text "High Rainfall Zone") ].
Proof. area_cases area; reflexivity. Qed.

Lemma dataDisplay_headings (area : SelectedArea) (vd rd : JsValue) :
  flat_map headings (dataDisplay (Some area) vd rd false)
  = [ "Soil Data"; "Rainfall Data"; "Crop Suitability";
      "NDVI Vegetation Index (Annual)"; "Monthly Rainfall Distribution" ].
Proof. area_cases area; reflexivity. Qed.

(** C1, as stated, fails in Scenario B: the design's area-weighted mean
    of the two soil polygons is 6.9, the panel reports pH 6.8. *)
Lemma scenarioB_ph_is_not_the_weighted_mean :
  reportedNumber "pH Level:"
    (DataPanel (Some field) (Spec.soilLayer scenarioB) JNull) = Some 6.8%Q
  /\ (exists m, Spec.areaWeightedMean scenarioB = Some m /\ (m == 6.9)%Q)
  /\ ~ reportsAreaWeightedMean "pH Level:"
         (DataPanel (Some field) (Spec.soilLayer scenarioB) JNull) scenarioB.
Proof.
  split; [reflexivity | split].
  - eexists; split; [reflexivity | ]. reflexivity.
  - intros (q & m & Hq & Hm & E).
    rewrite DataPanel_reportedNumber in Hq. cbn in Hq.
    injection Hq as <-. vm_compute in Hm. injection Hm as <-.
    unfold Qeq in E. cbn in E. discriminate E.
Qed.

(** C1 (amended).  For every selected area and whatever the vector and
    raster data, the soil pH that the data panel reports is the fixed
    sample value 6.8 and no other numeric aggregate is reported; so the
    reported pH is the area-weighted mean of the contributing features
    exactly when that mean is 6.8. *)
Theorem DataPanel_reports_fixed_soil_ph (area : SelectedArea)
                                        (vd rd : JsValue) :
  (forall name,
     reportedNumber name (DataPanel (Some area) vd rd)
     = if String.eqb name "pH Level:" then Some 6.8%Q else None)
  /\ (forall cs,
        reportsAreaWeightedMean "pH Level:" (DataPanel (Some area) vd rd) cs
        <-> exists m, Spec.areaWeightedMean cs = Some m /\ (m == 6.8)%Q).
Proof.
  split; [apply DataPanel_reportedNumber | ].
  intro cs. unfold reportsAreaWeightedMean.
  rewrite DataPanel_reportedNumber. cbn [String.eqb Ascii.eqb Bool.eqb].
  split.
  - intros (q & m & Hq & Hm & E). injection Hq as <-.
    exists m. split; [exact Hm | symmetry; exact E].
  - intros (m & Hm & E). exists 6.8%Q, m.
    repeat split; [exact Hm | symmetry; exact E].
Qed.

(** C2, as stated, fails in Scenario A: the one contributing soil
    polygon has pH 7.2, so the range is [7.2, 7.2]; the panel reports
    6.8, below it. *)
Lemma scenarioA_ph_is_below_the_range :
  Spec.minValue scenarioA = Some 7.2%Q
  /\ Spec.maxValue scenarioA = Some 7.2%Q
  /\ ~ withinContributingRange "pH Level:"
         (DataPanel (Some field) (Spec.soilLayer scenarioA) JNull) scenarioA.
Proof.
  split; [reflexivity | split; [reflexivity | ]].
  intros (q & lo & hi & Hq & Hlo & _ & Hle & _).
  rewrite DataPanel_reportedNumber in Hq. cbn in Hq.
  injection Hq as <-. vm_compute in Hlo. injection Hlo as <-.
  apply Hle. reflexivity.
Qed.

(** C2 (amended).  The pH that the data panel reports is 6.8 whatever
    features contribute; it lies within [min, max] of the contributing
    features' values exactly when that range contains 6.8. *)
Theorem DataPanel_ph_within_range_iff (area : SelectedArea)
                                      (vd rd : JsValue)
                                      (cs : list Spec.Contribution) :
  withinContributingRange "pH Level:" (DataPanel (Some area) vd rd) cs
  <-> exists lo hi, Spec.minValue cs = Some lo
                    /\ Spec.maxValue cs = Some hi
                    /\ (lo <= 6.8)%Q /\ (6.8 <= hi)%Q.
Proof.
  unfold withinContributingRange.
  rewrite DataPanel_reportedNumber. cbn [String.eqb Ascii.eqb Bool.eqb].
  split.
  - intros (q & lo & hi & Hq & Hlo & Hhi & H1 & H2). injection Hq as <-.
    exists lo, hi. auto.
  - intros (lo & hi & Hlo & Hhi & H1 & H2). exists 6.8%Q, lo, hi. auto.
Qed.

(** C5, as stated, fails: even with raster data at hand the data panel
    lists three layers, not the four of the fixed order. *)
Lemma DataPanel_lists_no_raster_layer :
  layersListed (DataPanel (Some field) noRainfall someRaster)
  <> Spec.layerOrder.
Proof. discriminate. Qed.

(** C5 (amended).  For every selected area the data panel lists its
    layers in the fixed order Soil, Rainfall, CropSuitability, whatever
    vector and raster data have arrived; it has no raster entry, the
    NDVI raster being the first chart of the chart panel that the
    sidebar renders after the data panel. *)
Theorem DataPanel_lists_layers_in_fixed_order (area : SelectedArea)
                                              (vd rd : JsValue) :
  layersListed (DataPanel (Some area) vd rd)
  = [Spec.Soil; Spec.Rainfall; Spec.CropSuitability]
  /\ flat_map headings (dataDisplay (Some area) vd rd false)
     = [ "Soil Data"; "Rainfall Data"; "Crop Suitability";
         "NDVI Vegetation Index (Annual)"; "Monthly Rainfall Distribution" ].
Proof.
  split; [ | apply dataDisplay_headings].
  pose proof (DataPanel_headings area vd rd) as H.
  unfold layersListed.
  destruct (DataPanel (Some area) vd rd) as [n | ]; [ | discriminate H].
  injection H as ->. reflexivity.
Qed.

(** C6, as stated, fails: with vector data that holds no rainfall zone
    the rainfall section of the panel still reports aggregates. *)
Lemma rainfall_aggregates_present_without_zone :
  prop noRainfall "rainfall" = JArr []
  /\ ~ reportsNoAggregates "Rainfall Data"
         (DataPanel (Some field) noRainfall JNull).
Proof.
  split; [reflexivity | ].
  intros (n & Hn & He). injection Hn as <-. discriminate He.
Qed.

(** C6 (amended).  Whatever the vector data, also when it holds no
    rainfall zone, the data panel is rendered (the request does not
    fail) and its rainfall section reports the fixed sample values:
    annual average 1200mm, monsoon average 850mm, dry season average
    120mm, zone High Rainfall Zone. *)
Theorem DataPanel_reports_fixed_rainfall (area : SelectedArea)
                                         (vd rd : JsValue) :
  exists n,
    DataPanel (Some area) vd rd = Some n
    /\ sectionEntries "Rainfall Data" n
       = [ ("Annual Average:", Text "1200mm");
           ("Monsoon Average:", Text "850mm");
           ("Dry Season Average:", Text "120mm");
           ("Rainfall Zone:", Text "High Rainfall Zone") ].
Proof.
  pose proof (DataPanel_rainfall_section area vd rd) as H.
  destruct (DataPanel (Some area) vd rd) as [n | ]; [ | discriminate H].
  exists n. split; [reflexivity | ]. injection H as ->. reflexivity.
Qed.

(** ** Layer visibility *)

Lemma toggleUpdater_getLayer (layer k : LayerKey) (prev : LayerVisibility) :
  getLayer (toggleUpdater layer prev) k
  = if LayerKey_eqb k layer then negb (getLayer prev k) else getLayer prev k.
Proof. destruct layer, k; reflexivity. Qed.

Lemma toggleUpdater_involutive (layer : LayerKey) (prev : LayerVisibility) :
  toggleUpdater layer (toggleUpdater layer prev) = prev.
Proof.
  destruct prev as [s r n], layer; unfold toggleUpdater; cbn;
    rewrite negb_involutive; reflexivity.
Qed.

(** C9.  For every layer key [k], [toggleLayer k] negates the field [k]
    of the layer visibility and leaves the other two fields (and the
    rest of the state) as they were; applying it twice restores the
    state; and the layer control shows one check box per key, checked
    as the field says, whose change calls [toggleLayer] on that key. *)
Theorem toggleLayer_flips_one_field (layer : LayerKey) (s : AppState) :
  checkboxes (LayerControl (layerVisibility s))
  = map (fun k => (getLayer (layerVisibility s) k, CallToggleLayer k))
        [k_soil; k_rainfall; k_ndvi]
  /\ (forall k,
     getLayer (layerVisibility (toggleLayer layer s)) k
     = if LayerKey_eqb k layer
       then negb (getLayer (layerVisibility s) k)
       else getLayer (layerVisibility s) k)
  /\ (selectedArea (toggleLayer layer s), mapCenter (toggleLayer layer s),
      mapZoom (toggleLayer layer s), isLoading (toggleLayer layer s),
      vectorData (toggleLayer layer s), rasterData (toggleLayer layer s))
     = (selectedArea s, mapCenter s, mapZoom s, isLoading s,
        vectorData s, rasterData s)
  /\ toggleLayer layer (toggleLayer layer s) = s.
Proof.
  split; [reflexivity | split; [ | split]].
  - intro k. apply toggleUpdater_getLayer.
  - reflexivity.
  - destruct s as [a lv c z l v r]. unfold toggleLayer, setLayerVisibility.
    cbn. rewrite toggleUpdater_involutive. reflexivity.
Qed.

(** ** No selected area *)

(** C10.  Without a selected area the data panel and the download panel
    both return null, and the sidebar, loading or not and whatever its
    other props, contains no node of either panel: no data section and
    no download button. *)
Theorem panels_render_nothing_without_area (vd rd : JsValue) :
  DataPanel None vd rd = None
  /\ DownloadPanel None vd rd = None
  /\ forall search layers loading,
       existsb showsData
               (descendants (Sidebar search None layers vd rd loading))
       = false.
Proof.
  split; [reflexivity | split; [reflexivity | ]].
  intros search layers [ | ]; reflexivity.
Qed.

(** ** The simulated request *)

Lemma insertByDue_length (t : Timer) (l : list Timer) :
  List.length (insertByDue t l) = S (List.length l).
Proof.
  induction l as [ | u rest IH]; cbn; [reflexivity | ].
  destruct (due t <? due u); cbn; [reflexivity | ]. now rewrite IH.
Qed.

Lemma sortByDue_length (l : list Timer) :
  List.length (sortByDue l) = List.length l.
Proof.
  unfold sortByDue.
  assert (G : forall acc,
             List.length (fold_left (fun acc t => insertByDue t acc) l acc)
             = (List.length l + List.length acc)%nat).
  { induction l as [ | t rest IH]; intro acc; cbn; [reflexivity | ].
    rewrite IH, insertByDue_length. lia. }
  rewrite G. cbn. lia.
Qed.

Lemma sortByDue_nil (l : list Timer) : sortByDue l = [] -> l = [].
Proof.
  intro H. apply length_zero_iff_nil.
  rewrite <- sortByDue_length, H. reflexivity.
Qed.

(** Once a callback has run, running more of them changes nothing. *)
Lemma runCallback_again (c c' : Callback) (s : AppState) :
  runCallback c (runCallback c' s) = runCallback c' s.
Proof. destruct c, c'. reflexivity. Qed.

Lemma fire_after_first (l : list Timer) (c : Callback) (s : AppState) :
  fold_left (fun s' tm => runCallback (callback tm) s') l (runCallback c s)
  = runCallback c s.
Proof.
  induction l as [ | tm rest IH]; cbn; [reflexivity | ].
  rewrite runCallback_again. exact IH.
Qed.

(** Firing at least one timer leaves the page as one callback does. *)
Lemma fire_nonempty (l : list Timer) (s : AppState) :
  l <> [] ->
  fold_left (fun s' tm => runCallback (callback tm) s') l s
  = runCallback areaDataArrived s.
Proof.
  destruct l as [ | [d []] rest]; [congruence | intros _].
  cbn [fold_left callback]. apply fire_after_first.
Qed.

Lemma filter_snoc {A : Type} (f : A -> bool) (l : list A) (x : A) :
  filter f (l ++ [x]) = (filter f l ++ (if f x then [x] else []))%list.
Proof. rewrite filter_app. cbn. destruct (f x); reflexivity. Qed.

Lemma app_handleAreaSelection (area : SelectedArea) (w : World) :
  app (handleAreaSelection area w)
  = setIsLoading true (setSelectedArea (Some area) (app w)).
Proof. reflexivity. Qed.

Lemma timers_handleAreaSelection (area : SelectedArea) (w : World) :
  timers (handleAreaSelection area w)
  = (timers w ++ [{| due := now w + delay; callback := areaDataArrived |}])%list.
Proof. reflexivity. Qed.

(** From the delay on, the request has delivered. *)
Lemma runUntil_after_delay (area : SelectedArea) (w : World) (t : Z) :
  now w + delay <= t ->
  app (runUntil t (handleAreaSelection area w)) = delivered area (app w)
  /\ Forall (fun tm => t < due tm)
            (timers (runUntil t (handleAreaSelection area w))).
Proof.
  intro Ht. split.
  - unfold runUntil. cbn [app]. rewrite timers_handleAreaSelection.
    rewrite fire_nonempty; [reflexivity | ].
    intro E. apply sortByDue_nil in E. rewrite filter_snoc in E.
    unfold expired at 2 in E. cbn [due] in E.
    destruct (Z.leb_spec (now w + delay) t) as [_ | Hlt]; [ | lia].
    destruct (filter (expired t) (timers w)); discriminate E.
  - unfold runUntil. cbn [timers]. apply Forall_forall.
    intros tm Hin. apply filter_In in Hin. destruct Hin as [_ Hne].
    unfold expired in Hne. apply negb_true_iff, Z.leb_gt in Hne. exact Hne.
Qed.

(** Before the delay, the request is pending; the page waits, unless an
    older request has delivered meanwhile. *)
Lemma runUntil_before_delay (area : SelectedArea) (w : World) (t : Z) :
  t < now w + delay ->
  In {| due := now w + delay; callback := areaDataArrived |}
     (timers (runUntil t (handleAreaSelection area w)))
  /\ (app (runUntil t (handleAreaSelection area w))
      = setIsLoading true (setSelectedArea (Some area) (app w))
      \/ app (runUntil t (handleAreaSelection area w))
         = delivered area (app w)).
Proof.
  intro Ht.
  assert (Hexp : expired t {| due := now w + delay;
                              callback := areaDataArrived |} = false).
  { unfold expired. cbn [due]. apply Z.leb_gt. exact Ht. }
  split.
  - unfold runUntil. cbn [timers]. rewrite timers_handleAreaSelection.
    apply filter_In. split; [apply in_or_app; right; left; reflexivity | ].
    rewrite Hexp. reflexivity.
  - unfold runUntil. cbn [app]. rewrite timers_handleAreaSelection.
    rewrite filter_snoc, Hexp, app_nil_r.
    destruct (sortByDue (filter (expired t) (timers w))) as [ | tm rest] eqn:E.
    + left. reflexivity.
    + right. rewrite fire_nonempty; [reflexivity | discriminate].
Qed.

Lemma shown_delivered (area : SelectedArea) (w : World) (s : AppState) :
  app w = delivered area s -> shown w = reportDisplay area.
Proof. intro E. unfold shown. rewrite E. reflexivity. Qed.

Lemma shown_waiting (area : SelectedArea) (w : World) (s : AppState) :
  app w = setIsLoading true (setSelectedArea (Some area) s) ->
  shown w = loadingDisplay.
Proof. intro E. unfold shown. rewrite E. reflexivity. Qed.

Lemma report_delivered (area : SelectedArea) (w : World) (s : AppState) :
  app w = delivered area s ->
  report w = (Some area, JObj [], JObj [], reportDisplay area).
Proof.
  intro E. unfold report. rewrite (shown_delivered area w s E), E.
  reflexivity.
Qed.

(** C4, as stated, fails on its tie-breaking: where two soil polygons
    share the field half and half, the lower identifier gives Black
    Cotton Soil; the report that the page shows has soil type Alluvial. *)
Lemma tie_is_not_broken_by_identifier :
  let w := runUntil 1000 (handleAreaSelection field freshPage) in
  let panel := DataPanel (selectedArea (app w)) (vectorData (app w))
                         (rasterData (app w)) in
  Spec.dominantCategory scenarioTie = Some "Black Cotton Soil"
  /\ reportedText "Soil Type:" panel = Some "Alluvial"
  /\ ~ reportsDominantCategory "Soil Type:" panel scenarioTie.
Proof.
  cbv zeta. split; [reflexivity | split; [reflexivity | ]].
  intros (s & Hs & Hd). vm_compute in Hs, Hd. congruence.
Qed.

(** C4 (amended).  Selecting an area is deterministic: two runs of
    [handleAreaSelection] with the same area, from whatever page states
    and observed at whatever times after the simulated delay, yield the
    same report, namely the area, empty vector and raster data and the
    panels of that area, categorical values included; these are fixed
    sample values (soil type Alluvial), not the outcome of a tie-break. *)
Theorem area_report_is_deterministic (w1 w2 : World) (area : SelectedArea)
                                     (t1 t2 : Z)
                                     (H1 : now w1 + delay <= t1)
                                     (H2 : now w2 + delay <= t2) :
  report (runUntil t1 (handleAreaSelection area w1))
  = report (runUntil t2 (handleAreaSelection area w2))
  /\ report (runUntil t1 (handleAreaSelection area w1))
     = (Some area, JObj [], JObj [], reportDisplay area)
  /\ reportedText "Soil Type:"
       (DataPanel (Some area) (JObj []) (JObj [])) = Some "Alluvial".
Proof.
  destruct (runUntil_after_delay area w1 t1 H1) as [E1 _].
  destruct (runUntil_after_delay area w2 t2 H2) as [E2 _].
  rewrite (report_delivered area _ _ E1), (report_delivered area _ _ E2).
  repeat split. apply DataPanel_reportedText_soil_type.
Qed.

Lemma area_report_is_deterministic_witness :
  now freshPage + delay <= 1000
  /\ now busyPage + delay <= 2500
  /\ report (runUntil 1000 (handleAreaSelection field freshPage))
     = report (runUntil 2500 (handleAreaSelection field busyPage)).
Proof.
  split; [vm_compute; discriminate | split; [vm_compute; discriminate | ]].
  apply (area_report_is_deterministic freshPage busyPage field 1000 2500);
    vm_compute; discriminate.
Defined.

(** C8, as stated, fails: half a second after the selection, a timeout
    that has elapsed aborts nothing; the request is still pending, the
    sidebar still says it is loading, and at one second the data arrive. *)
Lemma request_not_aborted_at_timeout :
  timers (runUntil 500 (handleAreaSelection field freshPage))
  = [{| due := 1000; callback := areaDataArrived |}]
  /\ shown (runUntil 500 (handleAreaSelection field freshPage))
     = loadingDisplay
  /\ vectorData (app (runUntil 1000 (handleAreaSelection field freshPage)))
     = JObj []
  /\ ~ abortedAfter 500 field freshPage.
Proof.
  repeat split.
  intro H. apply H. left. reflexivity.
Qed.

(** C8 (amended).  [handleAreaSelection] takes no timeout.  It returns
    at once with the page loading and one timer pending; at any time
    short of the simulated delay of 1000 ms that timer is still pending
    and the sidebar shows the loading notice or, when an older request
    has delivered meanwhile, the panels, never an error; from 1000 ms on
    the timer has fired, the data are set and loading has ended. *)
Theorem simulated_request_runs_to_completion (w : World)
                                             (area : SelectedArea)
                                             (T t : Z)
                                             (HT : T < delay)
                                             (Ht : now w + delay <= t) :
  let w1 := handleAreaSelection area w in
  let pending := {| due := now w + delay; callback := areaDataArrived |} in
  (isLoading (app w1) = true /\ timers w1 = (timers w ++ [pending])%list)
  /\ (In pending (timers (runUntil (now w + T) w1))
      /\ ~ abortedAfter T area w
      /\ (shown (runUntil (now w + T) w1) = loadingDisplay
          \/ shown (runUntil (now w + T) w1) = reportDisplay area))
  /\ (Forall (fun tm => t < due tm) (timers (runUntil t w1))
      /\ app (runUntil t w1) = delivered area (app w)
      /\ isLoading (app (runUntil t w1)) = false
      /\ shown (runUntil t w1) = reportDisplay area).
Proof.
  cbv zeta.
  assert (HT' : now w + T < now w + delay) by lia.
  destruct (runUntil_before_delay area w (now w + T) HT') as [Hin Happ].
  destruct (runUntil_after_delay area w t Ht) as [Edone Hall].
  split; [split; reflexivity | split; [split; [ | split] | ]].
  - exact Hin.
  - intro H. exact (H Hin).
  - destruct Happ as [E | E].
    + left. exact (shown_waiting area _ _ E).
    + right. exact (shown_delivered area _ _ E).
  - repeat split.
    + exact Hall.
    + exact Edone.
    + rewrite Edone. reflexivity.
    + exact (shown_delivered area _ _ Edone).
Qed.

Lemma simulated_request_runs_to_completion_witness :
  500 < delay
  /\ now busyPage + delay <= 3000
  /\ In {| due := now busyPage + delay; callback := areaDataArrived |}
        (timers (runUntil (now busyPage + 500)
                          (handleAreaSelection field busyPage)))
  /\ isLoading (app (runUntil 3000 (handleAreaSelection field busyPage)))
     = false.
Proof.
  assert (HT : 500 < delay) by (vm_compute; reflexivity).
  assert (Ht : now busyPage + delay <= 3000) by (vm_compute; discriminate).
  pose proof (simulated_request_runs_to_completion busyPage field 500 3000
                                                   HT Ht) as H.
  cbv zeta in H.
  destruct H as (_ & (Hin & _ & _) & (_ & _ & Hload & _)).
  split; [exact HT | split; [exact Ht | split; [exact Hin | exact Hload]]].
Defined.

(** ** Coordinates *)

Lemma Qlt_bool_true (x y : Q) : (x < y)%Q -> Qlt_bool x y = true.
Proof.
  intro H. unfold Qlt_bool. apply negb_true_iff.
  destruct (Qle_bool y x) eqn:E; [ | reflexivity].
  apply Qle_bool_iff in E. exfalso. exact (Qlt_not_le _ _ H E).
Qed.

(** A number outside [lo, hi] fails one of the two comparisons. *)
Lemma outside_detected (lo hi : Q) (n : JsNumber) :
  outside lo hi n -> lt n (Finite lo) || gt n (Finite hi) = true.
Proof.
  destruct n as [ | q | [ | ]]; cbn; intro H.
  - contradiction.
  - destruct H as [H | H]; rewrite (Qlt_bool_true _ _ H);
      [reflexivity | apply orb_true_r].
  - reflexivity.
  - reflexivity.
Qed.

Lemma invalidCoordinates_detected (lat lng : JsNumber) :
  isNaN lat = true \/ isNaN lng = true
  \/ outside (-90) 90 lat \/ outside (-180) 180 lng ->
  LocationSearch.invalidCoordinates lat lng = true.
Proof.
  unfold LocationSearch.invalidCoordinates.
  intros [H | [H | [H | H]]].
  - rewrite H. reflexivity.
  - rewrite H. rewrite orb_true_r. reflexivity.
  - apply outside_detected in H. apply orb_true_iff in H.
    destruct H as [H | H]; rewrite H; rewrite ?orb_true_r; reflexivity.
  - apply outside_detected in H. apply orb_true_iff in H.
    destruct H as [H | H]; rewrite H; rewrite ?orb_true_r; reflexivity.
Qed.

(** C7, as stated, fails: a polygon drawn with vertices at longitude
    190 is not turned away; it becomes the selected area and its
    request is started. *)
Lemma out_of_bounds_polygon_is_selected :
  (exists ring c, MapComponent.getLatLngs farEast = [ring]
                  /\ In c ring /\ outOfBounds c)
  /\ (exists w, draw farEast freshPage = Some w
                /\ isLoading (app w) = true
                /\ timers w = [{| due := 1000; callback := areaDataArrived |}])
  /\ ~ rejects farEast freshPage.
Proof.
  split; [ | split].
  - eexists; exists (MapComponent.mkLatLng 19 190).
    split; [reflexivity | split].
    + right; left; reflexivity.
    + unfold outOfBounds. right; right; right. reflexivity.
  - eexists. repeat split.
  - intros [H | H]; vm_compute in H; discriminate H.
Qed.

(** C7 (amended).  Bounds are checked only on the coordinate form: when
    the latitude entered is not a number or lies outside [-90, 90], or
    the longitude is not a number or lies outside [-180, 180],
    [handleCoordinateSubmit] alerts that the coordinates are invalid
    and returns before doing anything else.  A polygon drawn on the map
    is not checked: [handleCreated] passes its first ring on as the
    selected area, whatever its vertices. *)
Theorem coordinate_form_validates_bounds
    (parseFloat : string -> JsNumber) (st : LocationSearch.State)
    (Hbad : isNaN (parseFloat (LocationSearch.lat
                                 (LocationSearch.coordinates st))) = true
            \/ isNaN (parseFloat (LocationSearch.lng
                                    (LocationSearch.coordinates st))) = true
            \/ outside (-90) 90
                 (parseFloat (LocationSearch.lat
                                (LocationSearch.coordinates st)))
            \/ outside (-180) 180
                 (parseFloat (LocationSearch.lng
                                (LocationSearch.coordinates st)))) :
  LocationSearch.handleCoordinateSubmit parseFloat st
  = [preventDefault; alert [str "Please enter valid coordinates"]]
  /\ forall ring rest w,
       draw {| MapComponent.layerType := "polygon";
               MapComponent.getLatLngs := ring :: rest |} w
       = Some (handleAreaSelection
                 {| type := polygon;
                    data := JArr (map MapComponent.pair ring);
                    label := None |} w).
Proof.
  split.
  - unfold LocationSearch.handleCoordinateSubmit.
    rewrite (invalidCoordinates_detected _ _ Hbad). reflexivity.
  - intros ring rest w. reflexivity.
Qed.

Lemma coordinate_form_validates_bounds_witness :
  outside (-90) 90
    (Decimal.parseFloat (LocationSearch.lat
                           (LocationSearch.coordinates badEntry)))
  /\ LocationSearch.handleCoordinateSubmit Decimal.parseFloat badEntry
     = [preventDefault; alert [str "Please enter valid coordinates"]].
Proof.
  assert (H : outside (-90) 90
                (Decimal.parseFloat
                   (LocationSearch.lat (LocationSearch.coordinates badEntry)))).
  { right. reflexivity. }
  split; [exact H | ].
  apply (coordinate_form_validates_bounds Decimal.parseFloat badEntry).
  right; right; left. exact H.
Defined.

(** ** The rule of the design

    The area-weighted mean that the design document describes does lie
    between the least and the greatest contributing value; the page
    departs from that property because it does not compute the mean. *)

Section DesignRule.

Import Spec.

Lemma contributes_positive (c : Contribution) :
  contributes c = true -> (0 < intersectionArea c)%Q.
Proof.
  unfold contributes, Qlt_bool. intro H. apply negb_true_iff in H.
  apply Qnot_le_lt. intro Hle. apply Qle_bool_iff in Hle. congruence.
Qed.

Lemma contributing_positive (cs : list Contribution) :
  Forall (fun c => (0 < intersectionArea c)%Q) (contributing cs).
Proof.
  apply Forall_forall. intros c Hin. apply filter_In in Hin.
  apply contributes_positive, Hin.
Qed.

Lemma sums_bounded_below (b : Q) (l : list Contribution) :
  Forall (fun c => (0 < intersectionArea c)%Q) l ->
  Forall (fun c => (b <= attribute c)%Q) l ->
  forall ws ta, (b * ta <= ws)%Q -> (b * areas l ta <= products l ws)%Q.
Proof.
  induction l as [ | c rest IH]; intros Hpos Hb ws ta H; [exact H | ].
  inversion Hpos as [ | ? ? Ha Hpos']; subst.
  inversion Hb as [ | ? ? Hc Hb']; subst.
  cbn. apply (IH Hpos' Hb').
  assert (b * intersectionArea c <= attribute c * intersectionArea c)%Q
    by (apply Qmult_le_compat_r; [exact Hc | apply Qlt_le_weak; exact Ha]).
  lra.
Qed.

Lemma sums_bounded_above (b : Q) (l : list Contribution) :
  Forall (fun c => (0 < intersectionArea c)%Q) l ->
  Forall (fun c => (attribute c <= b)%Q) l ->
  forall ws ta, (ws <= b * ta)%Q -> (products l ws <= b * areas l ta)%Q.
Proof.
  induction l as [ | c rest IH]; intros Hpos Hb ws ta H; [exact H | ].
  inversion Hpos as [ | ? ? Ha Hpos']; subst.
  inversion Hb as [ | ? ? Hc Hb']; subst.
  cbn. apply (IH Hpos' Hb').
  assert (attribute c * intersectionArea c <= b * intersectionArea c)%Q
    by (apply Qmult_le_compat_r; [exact Hc | apply Qlt_le_weak; exact Ha]).
  lra.
Qed.

Lemma areas_grow (l : list Contribution) :
  Forall (fun c => (0 < intersectionArea c)%Q) l ->
  forall ta, (ta <= areas l ta)%Q.
Proof.
  induction 1 as [ | c rest Ha _ IH]; intro ta; cbn; [apply Qle_refl | ].
  eapply Qle_trans; [ | apply IH]. lra.
Qed.

Lemma areas_positive (c : Contribution) (rest : list Contribution) :
  Forall (fun c => (0 < intersectionArea c)%Q) (c :: rest) ->
  (0 < areas (c :: rest) 0)%Q.
Proof.
  intro H. inversion H as [ | ? ? Ha Hrest]; subst. cbn.
  eapply Qlt_le_trans; [ | apply (areas_grow rest Hrest)]. lra.
Qed.

Lemma least_is_lower_bound (rest : list Contribution) :
  forall x,
    (fold_left (fun m d => Qmin m (attribute d)) rest x <= x)%Q
    /\ Forall (fun d => (fold_left (fun m d => Qmin m (attribute d)) rest x
                         <= attribute d)%Q) rest.
Proof.
  induction rest as [ | d rest IH]; intro x; cbn.
  - split; [apply Qle_refl | constructor].
  - destruct (IH (Qmin x (attribute d))) as [H1 H2]. split; [ | constructor].
    + eapply Qle_trans; [exact H1 | apply Q.le_min_l].
    + eapply Qle_trans; [exact H1 | apply Q.le_min_r].
    + exact H2.
Qed.

Lemma greatest_is_upper_bound (rest : list Contribution) :
  forall x,
    (x <= fold_left (fun m d => Qmax m (attribute d)) rest x)%Q
    /\ Forall (fun d => (attribute d
                         <= fold_left (fun m d => Qmax m (attribute d)) rest x)%Q)
              rest.
Proof.
  induction rest as [ | d rest IH]; intro x; cbn.
  - split; [apply Qle_refl | constructor].
  - destruct (IH (Qmax x (attribute d))) as [H1 H2]. split; [ | constructor].
    + eapply Qle_trans; [apply Q.le_max_l | exact H1].
    + eapply Qle_trans; [apply Q.le_max_r | exact H1].
    + exact H2.
Qed.

(** The design's mean lies within the contributing range. *)
Lemma design_mean_within_range (cs : list Contribution) (m lo hi : Q) :
  areaWeightedMean cs = Some m ->
  minValue cs = Some lo ->
  maxValue cs = Some hi ->
  (lo <= m)%Q /\ (m <= hi)%Q.
Proof.
  unfold areaWeightedMean, minValue, maxValue, weightedSum, totalArea.
  pose proof (contributing_positive cs) as Hpos.
  destruct (contributing cs) as [ | c rest]; [discriminate | ].
  intros Hm Hlo Hhi. injection Hm as <-. injection Hlo as <-.
  injection Hhi as <-.
  pose proof (areas_positive c rest Hpos) as Htotal.
  destruct (least_is_lower_bound rest (attribute c)) as [L1 L2].
  destruct (greatest_is_upper_bound rest (attribute c)) as [G1 G2].
  split.
  - apply Qle_shift_div_l; [exact Htotal | ].
    apply (sums_bounded_below _ (c :: rest) Hpos);
      [constructor; assumption | lra].
  - apply Qle_shift_div_r; [exact Htotal | ].
    apply (sums_bounded_above _ (c :: rest) Hpos);
      [constructor; assumption | lra].
Qed.

End DesignRule.

(** ** Worked examples *)

Example parseFloat_reads_decimal_prefixes :
  map Decimal.parseFloat
      ["95"; " -12.5abc"; "abc"; ""; ".5"; "1e3"; "-Infinity"; "1.5e-2x"]
  = [ Finite 95; Finite (-25 # 2); NaN; NaN; Finite (1 # 2); Finite 1000;
      Infinity true; Finite (3 # 200) ].
Proof. reflexivity. Qed.

Example valid_entry_is_logged_and_centred :
  LocationSearch.handleCoordinateSubmit Decimal.parseFloat
    {| LocationSearch.searchQuery := "";
       LocationSearch.coordinates :=
         {| LocationSearch.lat := "19.25"; LocationSearch.lng := "73.2" |} |}
  = [ preventDefault;
      consoleLog [str "Coordinates entered:"; num (Finite (77 # 4));
                  num (Finite (366 # 5))];
      alert [str "Map would center on coordinates: "; num (Finite (77 # 4));
             str ", "; num (Finite (366 # 5))] ].
Proof. reflexivity. Qed.

Example entry_on_the_bounds_is_valid :
  LocationSearch.invalidCoordinates (Finite (-90)) (Finite 180) = false.
Proof. reflexivity. Qed.

Example text_entry_is_invalid :
  LocationSearch.handleCoordinateSubmit Decimal.parseFloat
    {| LocationSearch.searchQuery := "";
       LocationSearch.coordinates :=
         {| LocationSearch.lat := "north"; LocationSearch.lng := "73.2" |} |}
  = [preventDefault; alert [str "Please enter valid coordinates"]].
Proof. reflexivity. Qed.

Example ndvi_switched_on :
  layerVisibility (toggleLayer k_ndvi initialState)
  = {| soil := true; rainfall := true; ndvi := true |}.
Proof. reflexivity. Qed.

Example marker_drawn_selects_nothing :
  draw {| MapComponent.layerType := "marker";
          MapComponent.getLatLngs := [] |} freshPage
  = Some freshPage.
Proof. reflexivity. Qed.

Example fresh_page_shows_the_prompt :
  shown freshPage
  = [Elem "div" [className "no-selection"]
       [Elem "p" [] [Text "Select an area on the map to view data"]]].
Proof. reflexivity. Qed.

Example download_click_announces_the_format :
  handleDownload "CSV"
  = [ consoleLog [str "Downloading data in CSV format"];
      alert [str "In a real app, this would download the data in CSV format"] ].
Proof. reflexivity. Qed.

(** An older request that delivers while a newer one is in flight ends
    the loading notice early. *)
Example older_request_ends_loading_early :
  let w := runUntil 2300 (handleAreaSelection field (runUntil 2000 busyPage)) in
  isLoading (app w) = false
  /\ timers w = [{| due := 3000; callback := areaDataArrived |}]
  /\ selectedArea (app w) = Some field.
Proof. repeat split. Qed.

Example scenarioB_design_mean :
  option_map Qred (Spec.areaWeightedMean scenarioB) = Some 6.9%Q.
Proof. reflexivity. Qed.

(** * Further properties of the front end *)

(** ** The sidebar *)

(** X1.  The sidebar contains nodes of the data panel or of the download
    panel exactly when an area is selected and no request is loading;
    while loading they are hidden even though an area is selected. *)
Theorem panels_shown_iff_selected_and_idle
    (search : LocationSearch.State) (sel : option SelectedArea)
    (layers : LayerVisibility) (vd rd : JsValue) (loading : bool) :
  existsb showsData (descendants (Sidebar search sel layers vd rd loading))
  = negb loading && match sel with Some _ => true | None => false end.
Proof.
  destruct loading; [destruct sel; reflexivity | ].
  destruct sel as [area | ]; [ | reflexivity].
  area_cases area; reflexivity.
Qed.

(** ** The running page *)

Lemma filter_none_complement {A : Type} (f : A -> bool) (l : list A) :
  filter f l = [] -> filter (fun x => negb (f x)) l = l.
Proof.
  induction l as [ | x rest IH]; cbn; [reflexivity | ].
  destruct (f x); [discriminate | ]. intro H. cbn. now rewrite IH.
Qed.

(** A timer that has expired has fired, and the data have arrived. *)
Lemma runUntil_fires (w : World) (tm : Timer) (t : Z) :
  In tm (timers w) -> due tm <= t ->
  app (runUntil t w) = runCallback areaDataArrived (app w).
Proof.
  intros Hin Hdue. unfold runUntil. cbn [app]. apply fire_nonempty.
  intro E. apply sortByDue_nil in E.
  assert (Hf : In tm (filter (expired t) (timers w))).
  { apply filter_In. split; [exact Hin | ]. apply Z.leb_le. exact Hdue. }
  rewrite E in Hf. exact Hf.
Qed.

(** Without an expired timer the clock alone moves. *)
Lemma runUntil_idle (w : World) (t : Z) :
  filter (expired t) (timers w) = [] ->
  app (runUntil t w) = app w /\ timers (runUntil t w) = timers w.
Proof.
  intro E. unfold runUntil. cbn [app timers]. rewrite E. split.
  - reflexivity.
  - apply filter_none_complement. exact E.
Qed.

Lemma runUntil_pending (w : World) (tm : Timer) (t : Z) :
  In tm (timers w) -> t < due tm -> In tm (timers (runUntil t w)).
Proof.
  intros Hin Hdue. unfold runUntil. cbn [timers]. apply filter_In.
  split; [exact Hin | ]. unfold expired. apply negb_true_iff, Z.leb_gt.
  exact Hdue.
Qed.

Lemma wellFormed_freshPage : wellFormed freshPage.
Proof.
  unfold wellFormed. split; [left; reflexivity | ].
  split; [constructor | ]. split; [discriminate | ].
  split; [left; reflexivity | reflexivity].
Qed.

Lemma wellFormed_toggle (layer : LayerKey) (w : World) :
  wellFormed w -> wellFormed (update (toggleLayer layer) w).
Proof. intro H. exact H. Qed.

Lemma wellFormed_select (ring : list MapComponent.LatLng) (w : World) :
  wellFormed w -> wellFormed (handleAreaSelection (areaOfRing ring) w).
Proof.
  intros (Hd & Ht & Hl & Hs & Hm). unfold wellFormed.
  split; [exact Hd | ]. split; [ | split; [ | split]].
  - rewrite timers_handleAreaSelection. apply Forall_app. split.
    + exact Ht.
    + constructor; [cbn; lia | constructor].
  - intros _. rewrite timers_handleAreaSelection.
    destruct (timers w); discriminate.
  - right. exists ring. reflexivity.
  - exact Hm.
Qed.

Lemma wellFormed_runUntil (t : Z) (w : World) :
  wellFormed w -> wellFormed (runUntil t w).
Proof.
  intros (Hd & Ht & Hl & Hs & Hm).
  assert (Htimers : Forall (fun tm => due tm <= now (runUntil t w) + delay)
                           (timers (runUntil t w))).
  { apply Forall_forall. intros tm Hin. unfold runUntil in Hin |- *.
    cbn [timers now] in *. apply filter_In in Hin. destruct Hin as [Hin _].
    rewrite Forall_forall in Ht. specialize (Ht tm Hin). lia. }
  destruct (filter (expired t) (timers w)) as [ | tm rest] eqn:E.
  - destruct (runUntil_idle w t E) as [Ea Et].
    unfold wellFormed. rewrite Ea, Et.
    split; [exact Hd | ]. split; [ | split; [exact Hl | split; assumption]].
    rewrite <- Et. exact Htimers.
  - assert (Hin : In tm (timers w) /\ expired t tm = true).
    { apply filter_In. rewrite E. left. reflexivity. }
    destruct Hin as [Hin Hexp]. apply Z.leb_le in Hexp.
    pose proof (runUntil_fires w tm t Hin Hexp) as Ea.
    unfold wellFormed. rewrite Ea.
    split; [right; reflexivity | ]. split; [exact Htimers | ].
    split; [cbn; discriminate | ]. split; [exact Hs | exact Hm].
Qed.

Lemma wellFormed_step (w : World) (ev : Event) :
  wellFormed w -> wellFormed (step w ev).
Proof.
  intro H. destruct ev as [layer | e | t]; cbn [step].
  - apply wellFormed_toggle, H.
  - unfold draw, MapComponent.handleCreated.
    destruct (String.eqb (MapComponent.layerType e) "polygon");
      [ | exact H].
    destruct (MapComponent.getLatLngs e) as [ | ring rest]; [exact H | ].
    cbn. apply (wellFormed_select ring), H.
  - apply wellFormed_runUntil, H.
Qed.

Lemma wellFormed_run (events : list Event) (w : World) :
  wellFormed w -> wellFormed (run events w).
Proof.
  revert w. induction events as [ | ev rest IH]; intros w H; [exact H | ].
  cbn. apply IH, wellFormed_step, H.
Qed.

Lemma fired_cases (l : list Timer) (s : AppState) :
  fold_left (fun s' tm => runCallback (callback tm) s') l s
  = match l with
    | [] => s
    | _ :: _ => runCallback areaDataArrived s
    end.
Proof.
  destruct l as [ | tm rest]; [reflexivity | ].
  apply fire_nonempty. discriminate.
Qed.

Lemma runUntil_keeps_selection (t : Z) (w : World) :
  selectedArea (app (runUntil t w)) = selectedArea (app w)
  /\ layerVisibility (app (runUntil t w)) = layerVisibility (app w).
Proof.
  unfold runUntil. cbn [app]. rewrite fired_cases.
  destruct (sortByDue (filter (expired t) (timers w))); split; reflexivity.
Qed.

Lemma step_selection (w : World) (ev : Event) :
  selectedArea (app (step w ev))
  = match drawnRing ev with
    | Some ring => Some (areaOfRing ring)
    | None => selectedArea (app w)
    end.
Proof.
  destruct ev as [layer | e | t]; cbn [step drawnRing].
  - reflexivity.
  - unfold draw, MapComponent.handleCreated.
    destruct (String.eqb (MapComponent.layerType e) "polygon");
      [ | reflexivity].
    destruct (MapComponent.getLatLngs e) as [ | ring rest]; reflexivity.
  - apply runUntil_keeps_selection.
Qed.

Lemma lastDrawn_before (events : list Event)
                       (prior : option (list MapComponent.LatLng)) :
  lastDrawn events prior
  = match lastDrawn events None with
    | Some ring => Some ring
    | None => prior
    end.
Proof.
  revert prior. induction events as [ | ev rest IH]; intro prior; cbn;
    [reflexivity | ].
  destruct (drawnRing ev) as [ring | ]; [ | apply IH].
  rewrite (IH (Some ring)). destruct (lastDrawn rest None); reflexivity.
Qed.

(** X2.  Whatever the user does, the selected area is the first ring of
    the polygon drawn last, as a list of [lat, lng] pairs, and the map
    shows exactly that ring as its green polygon; toggles, the passing
    of time, other shapes and a polygon event without a ring leave the
    selection alone. *)
Theorem selection_is_the_polygon_drawn_last (events : list Event) (w : World) :
  selectedArea (app (run events w))
  = match lastDrawn events None with
    | Some ring => Some (areaOfRing ring)
    | None => selectedArea (app w)
    end
  /\ MapView.renderSelectedArea (selectedArea (app (run events freshPage)))
     = match lastDrawn events None with
       | Some ring =>
         [MapView.Polygon (JArr (map MapComponent.pair ring)) "green"]
       | None => []
       end.
Proof.
  assert (G : forall evs w0,
             selectedArea (app (run evs w0))
             = match lastDrawn evs None with
               | Some ring => Some (areaOfRing ring)
               | None => selectedArea (app w0)
               end).
  { induction evs as [ | ev rest IH]; intro w0; [reflexivity | ].
    cbn [run fold_left lastDrawn]. fold (run rest (step w0 ev)).
    rewrite IH, step_selection.
    destruct (drawnRing ev) as [ring | ]; [ | reflexivity].
    rewrite (lastDrawn_before rest (Some ring)).
    destruct (lastDrawn rest None); reflexivity. }
  split; [apply G | ].
  rewrite G. destruct (lastDrawn events None); reflexivity.
Qed.

(** X3.  Whatever the user does from a fresh page, the map never shows
    a vector layer or the NDVI overlay, whichever layers are switched
    on: the only data that ever reach the page are empty objects.  Its
    children are the base tiles, the drawing tools and the selected
    polygon. *)
Theorem map_never_shows_data_layers (events : list Event) :
  let s := app (run events freshPage) in
  MapView.children (mapOf s)
  = ([MapView.baseLayer; MapView.drawingTools]
     ++ MapView.renderSelectedArea (selectedArea s))%list
  /\ existsb MapView.isDataLayer (MapView.children (mapOf s)) = false.
Proof.
  cbv zeta.
  destruct (wellFormed_run events freshPage wellFormed_freshPage)
    as (Hd & _ & _ & Hs & _).
  set (s := app (run events freshPage)) in *.
  assert (E : MapView.children (mapOf s)
              = ([MapView.baseLayer; MapView.drawingTools]
                 ++ MapView.renderSelectedArea (selectedArea s))%list).
  { unfold mapOf, MapView.MapComponent. cbn [MapView.children].
    destruct (layerVisibility s) as [so ra nd].
    destruct Hd as [Hd | Hd]; injection Hd as -> ->;
      destruct so, ra, nd; cbn; rewrite ?app_nil_r; reflexivity. }
  split; [exact E | ].
  rewrite E. destruct Hs as [-> | [ring ->]]; reflexivity.
Qed.

(** X4.  Whatever the user does from a fresh page, a page that shows the
    loading notice has a request pending, and one delay later (1000 ms,
    with no further action) it no longer loads: the notice cannot get
    stuck. *)
Theorem loading_ends_within_the_delay (events : list Event) :
  let w := run events freshPage in
  (isLoading (app w) = false \/ timers w <> [])
  /\ isLoading (app (runUntil (now w + delay) w)) = false.
Proof.
  cbv zeta.
  destruct (wellFormed_run events freshPage wellFormed_freshPage)
    as (_ & Ht & Hl & _ & _).
  set (w := run events freshPage) in *.
  split.
  - destruct (isLoading (app w)); [right; apply Hl; reflexivity | left].
    reflexivity.
  - destruct (timers w) as [ | tm rest] eqn:E.
    + destruct (runUntil_idle w (now w + delay)) as [Ea _];
        [rewrite E; reflexivity | ].
      rewrite Ea. destruct (isLoading (app w)); [ | reflexivity].
      exfalso. apply Hl; reflexivity.
    + inversion Ht as [ | ? ? Hdue _]; subst.
      rewrite (runUntil_fires w tm (now w + delay));
        [reflexivity | rewrite E; left; reflexivity | exact Hdue].
Qed.

(** X5.  A second area selected while the first request is in flight is
    shown as loaded as soon as the first request delivers: from then
    until its own request delivers the page shows the panels of the
    second area, with the loading notice gone, although that request is
    still pending. *)
Theorem stale_request_ends_loading_early
    (w : World) (a b : SelectedArea) (d t : Z)
    (Hd : 0 <= d < delay)
    (Ht : now w + delay <= t < now w + d + delay) :
  let w1 := runUntil (now w + d) (handleAreaSelection a w) in
  let w2 := runUntil t (handleAreaSelection b w1) in
  selectedArea (app w2) = Some b
  /\ isLoading (app w2) = false
  /\ shown w2 = reportDisplay b
  /\ In {| due := now w + d + delay; callback := areaDataArrived |}
        (timers w2).
Proof.
  cbv zeta.
  set (w1 := runUntil (now w + d) (handleAreaSelection a w)).
  assert (Hnow : now w1 = now w + d).
  { unfold w1, runUntil. cbn [now]. unfold handleAreaSelection, setTimeout.
    cbn [now update]. lia. }
  assert (Ha : In {| due := now w + delay; callback := areaDataArrived |}
                  (timers (handleAreaSelection b w1))).
  { rewrite timers_handleAreaSelection. apply in_or_app. left.
    apply (runUntil_before_delay a w (now w + d)). lia. }
  assert (Hb : In {| due := now w + d + delay; callback := areaDataArrived |}
                  (timers (handleAreaSelection b w1))).
  { rewrite timers_handleAreaSelection, Hnow.
    apply in_or_app. right. left. reflexivity. }
  assert (E : app (runUntil t (handleAreaSelection b w1))
              = delivered b (app w1)).
  { rewrite (runUntil_fires _ _ t Ha); [reflexivity | cbn; lia]. }
  split; [rewrite E; reflexivity | ].
  split; [rewrite E; reflexivity | ].
  split; [exact (shown_delivered b _ _ E) | ].
  apply runUntil_pending; [exact Hb | cbn; lia].
Qed.

Lemma stale_request_ends_loading_early_witness :
  0 <= 400 < delay
  /\ now freshPage + delay <= 1200 < now freshPage + 400 + delay
  /\ isLoading
       (app (runUntil 1200
               (handleAreaSelection
                  {| type := polygon; data := JArr []; label := None |}
                  (runUntil (now freshPage + 400)
                            (handleAreaSelection field freshPage)))))
     = false.
Proof.
  assert (Hd : 0 <= 400 < delay) by (unfold delay; lia).
  assert (Ht : now freshPage + delay <= 1200 < now freshPage + 400 + delay)
    by (unfold delay; cbn; lia).
  split; [exact Hd | split; [exact Ht | ]].
  exact (proj1 (proj2 (stale_request_ends_loading_early
                         freshPage field
                         {| type := polygon; data := JArr []; label := None |}
                         400 1200 Hd Ht))).
Defined.

(** ** Toggling layers *)

Lemma toggleUpdater_commute (a b : LayerKey) (lv : LayerVisibility) :
  toggleUpdater a (toggleUpdater b lv) = toggleUpdater b (toggleUpdater a lv).
Proof. destruct lv, a, b; reflexivity. Qed.

Lemma toggleLayer_twice (layer : LayerKey) (s : AppState) :
  toggleLayer layer (toggleLayer layer s) = s.
Proof.
  destruct s as [a lv c z l v r]. unfold toggleLayer, setLayerVisibility.
  cbn. rewrite toggleUpdater_involutive. reflexivity.
Qed.

(** X6.  Toggles of layers commute, and [n] toggles of one layer amount
    to none when [n] is even and to one when [n] is odd. *)
Theorem toggles_commute_and_cancel (a b : LayerKey) (n : nat) (s : AppState) :
  toggleLayer a (toggleLayer b s) = toggleLayer b (toggleLayer a s)
  /\ toggles n a s = if Nat.even n then s else toggleLayer a s.
Proof.
  split.
  - unfold toggleLayer, setLayerVisibility. cbn.
    rewrite toggleUpdater_commute. reflexivity.
  - revert s. induction n as [n IH] using (well_founded_induction lt_wf).
    intro s. destruct n as [ | [ | n]]; [reflexivity | reflexivity | ].
    cbn [toggles Nat.even]. rewrite toggleLayer_twice. apply IH. lia.
Qed.

Lemma fired_toggle (layer : LayerKey) (l : list Timer) (s : AppState) :
  fold_left (fun s' tm => runCallback (callback tm) s') l (toggleLayer layer s)
  = toggleLayer layer
      (fold_left (fun s' tm => runCallback (callback tm) s') l s).
Proof. rewrite !fired_cases. destruct l; reflexivity. Qed.

(** X7.  Layer toggles and the area request do not interfere: a toggle
    commutes with selecting an area and with the passing of time, it
    changes neither the pending timers nor what the sidebar shows below
    its controls, and neither selecting nor the arrival of the data
    changes the layer visibility. *)
Theorem toggles_independent_of_request
    (layer : LayerKey) (area : SelectedArea) (t : Z) (w : World) :
  update (toggleLayer layer) (handleAreaSelection area w)
  = handleAreaSelection area (update (toggleLayer layer) w)
  /\ update (toggleLayer layer) (runUntil t w)
     = runUntil t (update (toggleLayer layer) w)
  /\ timers (update (toggleLayer layer) w) = timers w
  /\ shown (update (toggleLayer layer) w) = shown w
  /\ layerVisibility (app (runUntil t (handleAreaSelection area w)))
     = layerVisibility (app w).
Proof.
  split; [reflexivity | ]. split; [ | split; [reflexivity | split]].
  - unfold runUntil, update. cbn [app now timers].
    rewrite fired_toggle. reflexivity.
  - reflexivity.
  - destruct (runUntil_keeps_selection t (handleAreaSelection area w))
      as [_ H].
    rewrite H. reflexivity.
Qed.

(** ** The layers of the map *)

Lemma existsb_guarded (f : MapView.MapElement -> bool) (visible : bool)
                      (v : JsValue) (e : MapView.MapElement) :
  (forall q, f (MapView.NumberText q) = false) ->
  existsb f (MapView.guarded visible v e) = visible && truthy v && f e.
Proof.
  intro Hf. unfold MapView.guarded.
  destruct visible; [ | reflexivity]. destruct (truthy v); cbn.
  - apply orb_false_r.
  - destruct v; cbn; rewrite ?Hf; reflexivity.
Qed.

Lemma existsb_renderSelectedArea (f : MapView.MapElement -> bool)
                                 (sel : option SelectedArea) :
  (forall p col, f (MapView.Polygon p col) = false) ->
  existsb f (MapView.renderSelectedArea sel) = false.
Proof.
  intro Hf. destruct sel as [a | ]; [ | reflexivity]. cbn.
  destruct (AreaType_eqb (type a) polygon); [ | reflexivity].
  cbn. rewrite Hf. reflexivity.
Qed.

Lemma hasVectorLayer_spec (color : string) (c : Q * Q) (z : Q)
                          (sel : option SelectedArea) (lv : LayerVisibility)
                          (vd rd : JsValue) :
  MapView.hasVectorLayer color (MapView.MapComponent c z sel lv vd rd)
  = truthy vd
    && ((soil lv && truthy (prop vd "soil") && String.eqb "#8B4513" color)
        || (rainfall lv && truthy (prop vd "rainfall")
            && String.eqb "#0000FF" color)).
Proof.
  unfold MapView.hasVectorLayer, MapView.MapComponent.
  cbn [MapView.children].
  rewrite !existsb_app.
  rewrite existsb_renderSelectedArea by reflexivity.
  change (existsb (MapView.isVectorLayer color)
                  [MapView.baseLayer; MapView.drawingTools]) with false.
  assert (Hr : existsb (MapView.isVectorLayer color)
                       (MapView.renderRasterOverlay lv rd) = false).
  { unfold MapView.renderRasterOverlay.
    destruct (negb (ndvi lv) || negb (truthy rd)
              || negb (truthy (prop rd "ndviUrl"))); reflexivity. }
  rewrite Hr. unfold MapView.renderVectorLayers.
  destruct (truthy vd); cbn [negb]; [ | reflexivity].
  rewrite existsb_app, !existsb_guarded by reflexivity.
  cbn [MapView.isVectorLayer orb andb]. rewrite orb_false_r. reflexivity.
Qed.

(** X8.  On the map a layer is present exactly when it is switched on
    and its data are there: the soil layer and the rainfall layer need
    truthy vector data with a truthy [soil] or [rainfall] entry, the
    NDVI overlay needs truthy raster data with a truthy [ndviUrl]; no
    toggle affects another layer. *)
Theorem map_layer_shown_iff_on_and_present
    (c : Q * Q) (z : Q) (sel : option SelectedArea) (lv : LayerVisibility)
    (vd rd : JsValue) :
  MapView.hasVectorLayer "#8B4513" (MapView.MapComponent c z sel lv vd rd)
  = soil lv && truthy vd && truthy (prop vd "soil")
  /\ MapView.hasVectorLayer "#0000FF" (MapView.MapComponent c z sel lv vd rd)
     = rainfall lv && truthy vd && truthy (prop vd "rainfall")
  /\ MapView.hasOverlay (MapView.MapComponent c z sel lv vd rd)
     = ndvi lv && truthy rd && truthy (prop rd "ndviUrl").
Proof.
  split; [ | split].
  - rewrite hasVectorLayer_spec.
    change (String.eqb "#8B4513" "#8B4513") with true.
    change (String.eqb "#0000FF" "#8B4513") with false.
    destruct (soil lv), (rainfall lv), (truthy vd), (truthy (prop vd "soil")),
      (truthy (prop vd "rainfall")); reflexivity.
  - rewrite hasVectorLayer_spec.
    change (String.eqb "#8B4513" "#0000FF") with false.
    change (String.eqb "#0000FF" "#0000FF") with true.
    destruct (soil lv), (rainfall lv), (truthy vd), (truthy (prop vd "soil")),
      (truthy (prop vd "rainfall")); reflexivity.
  - unfold MapView.hasOverlay, MapView.MapComponent. cbn [MapView.children].
    rewrite !existsb_app.
    rewrite existsb_renderSelectedArea by reflexivity.
    change (existsb MapView.isOverlay
                    [MapView.baseLayer; MapView.drawingTools]) with false.
    assert (Hv : existsb MapView.isOverlay
                         (MapView.renderVectorLayers lv vd) = false).
    { unfold MapView.renderVectorLayers.
      destruct (truthy vd); cbn [negb]; [ | reflexivity].
      rewrite existsb_app, !existsb_guarded by reflexivity.
      cbn [MapView.isOverlay]. rewrite !andb_false_r. reflexivity. }
    rewrite Hv. unfold MapView.renderRasterOverlay.
    destruct (ndvi lv), (truthy rd), (truthy (prop rd "ndviUrl"));
      reflexivity.
Qed.

(** ** The location forms *)

Lemma Qlt_bool_false (x y : Q) : Qlt_bool x y = false <-> (y <= x)%Q.
Proof.
  unfold Qlt_bool. rewrite negb_false_iff. apply Qle_bool_iff.
Qed.

Lemma within_iff (lo hi : Q) (n : JsNumber) :
  isNaN n || lt n (Finite lo) || gt n (Finite hi) = false <-> within lo hi n.
Proof.
  destruct n as [ | q | [ | ]]; cbn.
  - split; [discriminate | contradiction].
  - rewrite orb_false_iff, !Qlt_bool_false. reflexivity.
  - split; [discriminate | contradiction].
  - split; [discriminate | contradiction].
Qed.

Lemma invalidCoordinates_false_iff (lat lng : JsNumber) :
  LocationSearch.invalidCoordinates lat lng = false
  <-> within (-90) 90 lat /\ within (-180) 180 lng.
Proof.
  rewrite <- !within_iff. unfold LocationSearch.invalidCoordinates.
  destruct (isNaN lat), (isNaN lng), (lt lat (Finite (-90))),
    (gt lat (Finite 90)), (lt lng (Finite (-180))), (gt lng (Finite 180));
    cbn; intuition discriminate.
Qed.

(** X9.  The coordinate form accepts an entry exactly when both parsed
    numbers are finite with the latitude in [-90, 90] and the longitude
    in [-180, 180], bounds included: then it logs the two numbers and
    announces the centring of the map; in every other case (a number
    out of bounds, an infinity, not a number) its only action is the
    alert that the coordinates are invalid. *)
Theorem coordinate_entry_accepted_iff_within_bounds
    (parseFloat : string -> JsNumber) (st : LocationSearch.State) :
  let lat := parseFloat (LocationSearch.lat (LocationSearch.coordinates st)) in
  let lng := parseFloat (LocationSearch.lng (LocationSearch.coordinates st)) in
  (within (-90) 90 lat /\ within (-180) 180 lng
   /\ LocationSearch.handleCoordinateSubmit parseFloat st
      = [ preventDefault;
          consoleLog [str "Coordinates entered:"; num lat; num lng];
          alert [str "Map would center on coordinates: "; num lat;
                 str ", "; num lng] ])
  \/ (~ (within (-90) 90 lat /\ within (-180) 180 lng)
      /\ LocationSearch.handleCoordinateSubmit parseFloat st
         = [preventDefault; alert [str "Please enter valid coordinates"]]).
Proof.
  cbv zeta. unfold LocationSearch.handleCoordinateSubmit.
  destruct (LocationSearch.invalidCoordinates
              (parseFloat (LocationSearch.lat (LocationSearch.coordinates st)))
              (parseFloat (LocationSearch.lng (LocationSearch.coordinates st))))
    eqn:E.
  - right. split; [ | reflexivity].
    intro H. apply invalidCoordinates_false_iff in H. congruence.
  - left. apply invalidCoordinates_false_iff in E. destruct E as [H1 H2].
    split; [exact H1 | split; [exact H2 | reflexivity]].
Qed.

(** X10.  Neither form of the location search nor a download button
    acts on the page: whatever is typed, searching, submitting
    coordinates (valid or not) and downloading leave the selected area,
    the data, the loading flag and the pending timers as they were.
    Only drawing on the map selects an area. *)
Theorem forms_and_downloads_leave_the_page_alone
    (parseFloat : string -> JsNumber) (st : LocationSearch.State)
    (format : string) (w : World) :
  fold_left (fun w' e => perform e w')
            (LocationSearch.handleCoordinateSubmit parseFloat st) w = w
  /\ fold_left (fun w' e => perform e w') (LocationSearch.handleSearch st) w
     = w
  /\ fold_left (fun w' e => perform e w') (handleDownload format) w = w.
Proof.
  split; [ | split; reflexivity].
  unfold LocationSearch.handleCoordinateSubmit.
  destruct (LocationSearch.invalidCoordinates _ _); reflexivity.
Qed.

(** The three inputs of the location search show what was typed
    into them: each shows its own piece of state, typing into one
    changes that one alone, the last entry wins, and entries into
    different inputs commute. *)
Theorem location_inputs_show_what_was_typed
    (st : LocationSearch.State) (u v : string) :
  inputs (LocationSearch.render st)
  = [ ("Enter city, district, or state", LocationSearch.searchQuery st);
      ("Latitude", LocationSearch.lat (LocationSearch.coordinates st));
      ("Longitude", LocationSearch.lng (LocationSearch.coordinates st)) ]
  /\ inputs (LocationSearch.render (LocationSearch.setLat v st))
     = [ ("Enter city, district, or state", LocationSearch.searchQuery st);
         ("Latitude", v);
         ("Longitude", LocationSearch.lng (LocationSearch.coordinates st)) ]
  /\ inputs (LocationSearch.render (LocationSearch.setLng v st))
     = [ ("Enter city, district, or state", LocationSearch.searchQuery st);
         ("Latitude", LocationSearch.lat (LocationSearch.coordinates st));
         ("Longitude", v) ]
  /\ inputs (LocationSearch.render (LocationSearch.setSearchQuery v st))
     = [ ("Enter city, district, or state", v);
         ("Latitude", LocationSearch.lat (LocationSearch.coordinates st));
         ("Longitude", LocationSearch.lng (LocationSearch.coordinates st)) ]
  /\ LocationSearch.setLat v (LocationSearch.setLat u st)
     = LocationSearch.setLat v st
  /\ LocationSearch.setLat v (LocationSearch.setLng u st)
     = LocationSearch.setLng u (LocationSearch.setLat v st)
  /\ LocationSearch.setSearchQuery v (LocationSearch.setLat u st)
     = LocationSearch.setLat u (LocationSearch.setSearchQuery v st).
Proof. repeat split. Qed.

(** ** The profile page *)

Section ProfilePage.

Import UserProfile.

Variable token : option string.
Variable fetch : Fetch.

(** X11.  A password change that is not properly filled in is stopped
    before anything is sent: with a new password entered but no current
    password, or with a confirmation that differs, [handleSubmit] sends
    no request and only stores the matching error (clearing the update
    message); the user record, the form and the edit mode stay. *)
Theorem invalid_password_change_sends_nothing
    (st : State)
    (Hnew : new_password (formData st) <> "")
    (Hbad : current_password (formData st) = ""
            \/ new_password (formData st) <> confirm_password (formData st)) :
  snd (handleSubmit token fetch st) = []
  /\ exists message,
       fst (handleSubmit token fetch st)
       = setError (Some message) (setUpdateMessage None st)
       /\ (message = "Current password is required to set a new password"
           \/ message = "New passwords do not match").
Proof.
  unfold handleSubmit, nonEmpty.
  apply String.eqb_neq in Hnew. rewrite Hnew. cbn [negb andb].
  destruct (String.eqb (current_password (formData st)) "") eqn:Ec.
  - split; [reflexivity | ]. eexists. split; [reflexivity | left; reflexivity].
  - destruct Hbad as [Hc | Hd].
    + apply String.eqb_eq in Hc. congruence.
    + apply String.eqb_neq in Hd. rewrite Hd. cbn [negb].
      split; [reflexivity | ].
      eexists. split; [reflexivity | right; reflexivity].
Qed.

Lemma handleSubmit_requests (st : State) :
  snd (handleSubmit token fetch st) = []
  \/ (snd (handleSubmit token fetch st)
      = [patchRequest token (updateData (formData st) (userData st))]
      /\ updateData (formData st) (userData st) <> []
      /\ (new_password (formData st) <> "" ->
          current_password (formData st) <> ""
          /\ new_password (formData st) = confirm_password (formData st))).
Proof.
  unfold handleSubmit, nonEmpty.
  destruct (String.eqb (new_password (formData st)) "") eqn:En; cbn [negb andb].
  - destruct (updateData (formData st) (userData st)) eqn:Eu;
      [left; reflexivity | right].
    split; [reflexivity | split; [discriminate | ]].
    intro H. apply String.eqb_neq in H. congruence.
  - destruct (String.eqb (current_password (formData st)) "") eqn:Ec;
      cbn [negb]; [left; reflexivity | ].
    destruct (String.eqb (new_password (formData st))
                         (confirm_password (formData st))) eqn:Em;
      cbn [negb]; [ | left; reflexivity].
    destruct (updateData (formData st) (userData st)) eqn:Eu;
      [left; reflexivity | right].
    split; [reflexivity | split; [discriminate | ]].
    intros _. split; [apply String.eqb_neq; exact Ec | ].
    apply String.eqb_eq. exact Em.
Qed.

(** X12.  Whatever [handleSubmit] sends is one PATCH of the user record
    that carries the bearer token and a non-empty body of changed
    fields only: the confirmation is never in it, and the new password
    is in it exactly when one was entered, then together with a
    non-empty current password and only if the confirmation matched. *)
Theorem submitted_request_is_checked (st : State) (request : Request)
    (Hsent : In request (snd (handleSubmit token fetch st))) :
  snd (handleSubmit token fetch st) = [request]
  /\ method request = "PATCH" /\ url request = endpoint
  /\ In ("Authorization", bearer token) (headers request)
  /\ body request <> []
  /\ ~ In "confirm_password" (map fst (body request))
  /\ (In "new_password" (map fst (body request))
      <-> new_password (formData st) <> "")
  /\ (new_password (formData st) <> "" ->
      In ("new_password", new_password (formData st)) (body request)
      /\ In ("current_password", current_password (formData st))
            (body request)
      /\ current_password (formData st) <> ""
      /\ new_password (formData st) = confirm_password (formData st)).
Proof.
  destruct (handleSubmit_requests st) as [E | (E & Hne & Hpw)];
    rewrite E in Hsent; [contradiction | ].
  destruct Hsent as [<- | []].
  split; [exact E | ]. split; [reflexivity | ]. split; [reflexivity | ].
  split; [right; left; reflexivity | ]. split; [exact Hne | ].
  cbn [body patchRequest]. unfold updateData, nonEmpty.
  destruct (fullNameDiffers (formData st) (userData st)),
    (emailDiffers (formData st) (userData st)),
    (String.eqb (new_password (formData st)) "") eqn:En;
    cbn [negb List.app map fst In];
    (apply String.eqb_eq in En || apply String.eqb_neq in En);
    (split; [intuition discriminate | ]);
    (split; [split; [intuition discriminate | intuition congruence] | ]);
    intro H; try congruence;
    destruct (Hpw H) as [H1 H2]; intuition.
Qed.

(** X13.  Saving an untouched form right after the record has loaded
    sends nothing when the user has a full name and reports that there
    is nothing to update; for a user without a full name it sends a
    PATCH that sets the full name to the empty string. *)
Theorem untouched_form_after_load
    (st : State) (data : UserData)
    (Htoken : hasToken token = true)
    (Hload : fetch (getRequest token) = Got (Success (Got data)))
    (Hpw : new_password (formData st) = "") :
  let loaded := fst (fetchUserData token fetch st) in
  userData loaded = Some data
  /\ loading loaded = false
  /\ snd (handleSubmit token fetch loaded)
     = match full_name data with
       | Some _ => []
       | None => [patchRequest token [("full_name", "")]]
       end
  /\ (full_name data <> None ->
      updateMessage (fst (handleSubmit token fetch loaded))
      = Some "No changes to update").
Proof.
  cbv zeta. unfold fetchUserData. rewrite Htoken, Hload. cbn [negb fst].
  split; [reflexivity | split; [reflexivity | ]].
  destruct st as [u l e em [ff fe cp np cf] um]. cbn in Hpw. subst np.
  unfold handleSubmit, updateData, fullNameDiffers, emailDiffers, nonEmpty.
  cbn [formData setLoading setFormData setUserData fillForm new_password
       userData form_full_name form_email full_name email
       String.eqb negb andb].
  assert (Hself : forall s, String.eqb (orElse (Some s) "") s = true).
  { intro s. unfold orElse.
    destruct (String.eqb_spec s "") as [-> | _];
      [reflexivity | apply String.eqb_refl]. }
  rewrite Hself. cbn [negb List.app].
  destruct (full_name data) as [s | ].
  - rewrite Hself. cbn [negb List.app].
    split; [reflexivity | intros _; reflexivity].
  - cbn [List.app]. split; [reflexivity | congruence].
Qed.

(** X14.  When the server accepts the update, the record it returns
    replaces the user record, the three password fields are emptied
    while the name and the email stay as typed, the page leaves the
    edit mode, and the error gives way to the success message. *)
Theorem accepted_update_clears_passwords
    (st : State) (request : Request) (updated : UserData)
    (Hsent : snd (handleSubmit token fetch st) = [request])
    (Hok : fetch request = Got (Success (Got updated))) :
  fst (handleSubmit token fetch st)
  = {| userData := Some updated;
       loading := loading st;
       error := None;
       editMode := false;
       formData := clearPasswords (formData st);
       updateMessage := Some "Profile updated successfully" |}.
Proof.
  revert Hsent. unfold handleSubmit.
  destruct (nonEmpty (new_password (formData st))
            && negb (nonEmpty (current_password (formData st))));
    [discriminate | ].
  destruct (nonEmpty (new_password (formData st))
            && negb (String.eqb (new_password (formData st))
                                (confirm_password (formData st))));
    [discriminate | ].
  destruct (updateData (formData st) (userData st)) as [ | p l];
    [discriminate | ].
  cbn [snd fst]. intro H. injection H as H. rewrite H, Hok. reflexivity.
Qed.

(** X15.  When the update fails (the request is rejected, the response
    is not ok, or its body cannot be read) nothing is lost and nothing
    is stored: the user record, the form with the passwords typed and
    the edit mode stay as they were, and an error is set, which is the
    [detail] of the response when it has one. *)
Theorem failed_update_keeps_the_form
    (st : State) (request : Request)
    (Hsent : snd (handleSubmit token fetch st) = [request])
    (Hfail : forall updated, fetch request <> Got (Success (Got updated))) :
  exists message,
    fst (handleSubmit token fetch st)
    = {| userData := userData st;
         loading := loading st;
         error := Some message;
         editMode := editMode st;
         formData := formData st;
         updateMessage := None |}
    /\ (forall status d,
          fetch request = Got (Failure status (Got (Some d))) ->
          message = d).
Proof.
  revert Hsent. unfold handleSubmit.
  destruct (nonEmpty (new_password (formData st))
            && negb (nonEmpty (current_password (formData st))));
    [discriminate | ].
  destruct (nonEmpty (new_password (formData st))
            && negb (String.eqb (new_password (formData st))
                                (confirm_password (formData st))));
    [discriminate | ].
  destruct (updateData (formData st) (userData st)) as [ | p l];
    [discriminate | ].
  cbn [snd fst]. intro H. injection H as H. rewrite H.
  destruct (fetch request) as [m | [[m | u] | status [m | [d | ]]]] eqn:E;
    try (eexists; split; [reflexivity | intros ? ? [=]; subst; reflexivity]).
  exfalso. exact (Hfail u eq_refl).
Qed.

(** X16.  Cancel discards whatever was typed: after any entries into
    the form, it gives the same state as cancelling at once, with the
    name and the email of the user record back in the form, the
    passwords empty, the error cleared and the edit mode left. *)
Theorem cancel_discards_edits (st : State) (edits : list (Field * string)) :
  cancel (fold_left (fun s e => act token fetch (Change (fst e)) (snd e) s)
                    edits st)
  = cancel st
  /\ formData (cancel st)
     = {| form_full_name :=
            orElse (match userData st with
                    | Some u => full_name u
                    | None => None
                    end) "";
          form_email := orElse (option_map email (userData st)) "";
          current_password := ""; new_password := "";
          confirm_password := "" |}
  /\ editMode (cancel st) = false /\ error (cancel st) = None.
Proof.
  split; [ | repeat split].
  revert st. induction edits as [ | [name v] rest IH]; intro st;
    [reflexivity | ].
  cbn [fold_left]. rewrite IH. reflexivity.
Qed.

(** X17.  Without a token (null or empty) the profile page sends no
    request and changes nothing, so from its initial state it keeps
    showing the loading notice, which has no button. *)
Theorem profile_without_token_keeps_loading
    (st : State) (Hno : hasToken token = false) :
  fetchUserData token fetch st = (st, [])
  /\ render (fst (fetchUserData token fetch initial))
     = classed "div" "profile-loading" [HText "Loading profile..."]
  /\ handlersOf (render (fst (fetchUserData token fetch initial))) = [].
Proof.
  unfold fetchUserData. rewrite Hno. repeat split.
Qed.

(** X18.  When loading the record is refused with a status, the page
    outside the edit mode shows the status as its error and nothing
    else: no profile, no Edit and no Logout button. *)
Theorem refused_load_shows_only_the_error
    (st : State) (status : Z) (detail : Reply (option string))
    (Htoken : hasToken token = true)
    (Hview : editMode st = false)
    (Hload : fetch (getRequest token) = Got (Failure status detail)) :
  render (fst (fetchUserData token fetch st))
  = classed "div" "profile-error"
      [HText "Error: "; HText (statusMessage status)]
  /\ handlersOf (render (fst (fetchUserData token fetch st))) = []
  /\ userData (fst (fetchUserData token fetch st)) = userData st.
Proof.
  unfold fetchUserData. rewrite Htoken, Hload. cbn [negb fst].
  unfold render. cbn [loading setLoading setError error editMode].
  rewrite Hview. repeat split.
Qed.

End ProfilePage.

Lemma invalid_password_change_sends_nothing_witness :
  UserProfile.new_password (UserProfile.formData halfFilled) <> ""
  /\ snd (UserProfile.handleSubmit (Some "tok") agreeingServer halfFilled)
     = [].
Proof.
  assert (Hnew : UserProfile.new_password (UserProfile.formData halfFilled)
                 <> "") by discriminate.
  split; [exact Hnew | ].
  exact (proj1 (invalid_password_change_sends_nothing
                  (Some "tok") agreeingServer halfFilled Hnew
                  (or_introl eq_refl))).
Defined.

Lemma submitted_request_is_checked_witness :
  In (UserProfile.patchRequest (Some "tok")
        [ ("full_name", ""); ("current_password", "old");
          ("new_password", "s3cret") ])
     (snd (UserProfile.handleSubmit (Some "tok") agreeingServer wellFilled))
  /\ ~ In "confirm_password"
         (map fst [ ("full_name", ""); ("current_password", "old");
                    ("new_password", "s3cret") ]).
Proof.
  assert (Hsent : In (UserProfile.patchRequest (Some "tok")
                        [ ("full_name", ""); ("current_password", "old");
                          ("new_password", "s3cret") ])
                     (snd (UserProfile.handleSubmit (Some "tok")
                                                    agreeingServer wellFilled)))
    by (left; reflexivity).
  split; [exact Hsent | ].
  pose proof (submitted_request_is_checked (Some "tok") agreeingServer
                wellFilled _ Hsent) as H.
  exact (proj1 (proj2 (proj2 (proj2 (proj2 (proj2 H)))))).
Defined.

Lemma accepted_update_clears_passwords_witness :
  snd (UserProfile.handleSubmit (Some "tok") agreeingServer wellFilled)
  = [UserProfile.patchRequest (Some "tok")
       [ ("full_name", ""); ("current_password", "old");
         ("new_password", "s3cret") ]]
  /\ UserProfile.formData
       (fst (UserProfile.handleSubmit (Some "tok") agreeingServer wellFilled))
     = UserProfile.clearPasswords (UserProfile.formData wellFilled).
Proof.
  split; [reflexivity | ].
  rewrite (accepted_update_clears_passwords (Some "tok") agreeingServer
             wellFilled _ sampleUser eq_refl eq_refl).
  reflexivity.
Defined.

Lemma failed_update_keeps_the_form_witness :
  snd (UserProfile.handleSubmit (Some "tok") refusingServer wellFilled)
  = [UserProfile.patchRequest (Some "tok")
       [ ("full_name", ""); ("current_password", "old");
         ("new_password", "s3cret") ]]
  /\ exists message,
       UserProfile.error
         (fst (UserProfile.handleSubmit (Some "tok") refusingServer wellFilled))
       = Some message.
Proof.
  split; [reflexivity | ].
  destruct (failed_update_keeps_the_form (Some "tok") refusingServer
              wellFilled _ eq_refl) as (m & E & _).
  - intros updated. discriminate.
  - exists m. rewrite E. reflexivity.
Defined.

Lemma profile_without_token_keeps_loading_witness :
  hasToken (Some "") = false
  /\ UserProfile.fetchUserData (Some "") agreeingServer UserProfile.initial
     = (UserProfile.initial, []).
Proof.
  split; [reflexivity | ].
  exact (proj1 (profile_without_token_keeps_loading
                  (Some "") agreeingServer UserProfile.initial eq_refl)).
Defined.

Lemma refused_load_shows_only_the_error_witness :
  hasToken (Some "tok") = true
  /\ UserProfile.render
       (fst (UserProfile.fetchUserData (Some "tok") refusingServer
                                       UserProfile.initial))
     = classed "div" "profile-error" [HText "Error: "; HText "Error: 401"].
Proof.
  split; [reflexivity | ].
  exact (proj1 (refused_load_shows_only_the_error
                  (Some "tok") refusingServer UserProfile.initial 401
                  (Got (Some "Incorrect password")) eq_refl eq_refl eq_refl)).
Defined.

Lemma untouched_form_after_load_witness :
  hasToken (Some "tok") = true
  /\ snd (UserProfile.handleSubmit (Some "tok") agreeingServer
            (fst (UserProfile.fetchUserData (Some "tok") agreeingServer
                                            UserProfile.initial)))
     = [UserProfile.patchRequest (Some "tok") [("full_name", "")]].
Proof.
  split; [reflexivity | ].
  exact (proj1 (proj2 (proj2
           (untouched_form_after_load (Some "tok") agreeingServer
              UserProfile.initial sampleUser eq_refl eq_refl eq_refl)))).
Defined.

(** ** Authentication and protected routes *)

(** X19.  A protected route renders its content exactly when the
    provider has finished loading, holds a non-empty token and, for an
    admin route, holds a user record whose [is_admin] is true; while
    loading it renders the spinner, without a token it redirects to
    [/login], and on an admin route a missing record or a record
    without [is_admin] redirects to [/unauthorized]. *)
Theorem protected_content_shown_iff (requireAdmin : bool) (auth : Auth.State) :
  (ProtectedRoute requireAdmin auth = outlet
   <-> Auth.isLoading auth = false
       /\ Auth.isAuthenticated auth = true
       /\ (requireAdmin = false \/ isAdmin (Auth.user auth) = true))
  /\ (ProtectedRoute requireAdmin auth = navigate "/login"
      <-> Auth.isLoading auth = false /\ Auth.isAuthenticated auth = false)
  /\ (ProtectedRoute requireAdmin auth = navigate "/unauthorized"
      <-> Auth.isLoading auth = false
          /\ Auth.isAuthenticated auth = true
          /\ requireAdmin = true /\ isAdmin (Auth.user auth) = false).
Proof.
  unfold ProtectedRoute.
  destruct (Auth.isLoading auth), (Auth.isAuthenticated auth), requireAdmin,
    (isAdmin (Auth.user auth)); cbn;
    repeat split; intros; try discriminate; try reflexivity;
    intuition discriminate.
Qed.

Lemma auth_step_invariant (fetch : Auth.Fetch) (st : Auth.State)
                          (s : Auth.Step) :
  Auth.token st = Auth.stored st ->
  Auth.token (Auth.step fetch st s) = Auth.stored (Auth.step fetch st s)
  /\ (Auth.isLoading st = false \/ s = Auth.Settle ->
      Auth.isLoading (Auth.step fetch st s) = false).
Proof.
  intro H. destruct s as [t | | ]; cbn [Auth.step].
  - split; [reflexivity | ]. intros [E | E]; [exact E | discriminate].
  - split; [reflexivity | ]. intros [E | E]; [exact E | discriminate].
  - unfold Auth.fetchUser.
    destruct (negb (hasToken (Auth.token st)));
      [split; [exact H | reflexivity] | ].
    destruct (fetch (Auth.meRequest (Auth.token st))) as [m | [[m | u] | ]];
      cbn; split; try reflexivity; exact H.
Qed.

(** X20.  Whatever calls of [login] and [logout] and runs of the effect
    have happened since the provider was mounted, the token in its
    state is the token in local storage; and once the effect has run to
    the end, the provider never reports loading again, whatever
    follows. *)
Theorem token_mirrors_local_storage
    (fetch : Auth.Fetch) (storedToken : option string)
    (steps later : list Auth.Step) :
  Auth.token (Auth.run fetch steps (Auth.initial storedToken))
  = Auth.stored (Auth.run fetch steps (Auth.initial storedToken))
  /\ Auth.isLoading
       (Auth.run fetch (steps ++ Auth.Settle :: later)
                 (Auth.initial storedToken))
     = false.
Proof.
  assert (G : forall l st,
             Auth.token st = Auth.stored st ->
             Auth.token (Auth.run fetch l st) = Auth.stored (Auth.run fetch l st)
             /\ (Auth.isLoading st = false ->
                 Auth.isLoading (Auth.run fetch l st) = false)).
  { induction l as [ | s rest IH]; intros st H; [split; [exact H | auto] | ].
    destruct (auth_step_invariant fetch st s H) as [H1 H2].
    destruct (IH (Auth.step fetch st s) H1) as [I1 I2].
    split; [exact I1 | ]. intro E. apply I2, H2. left. exact E. }
  destruct (G steps (Auth.initial storedToken) eq_refl) as [G1 _].
  split; [exact G1 | ].
  unfold Auth.run. rewrite fold_left_app. cbn [fold_left].
  fold (Auth.run fetch steps (Auth.initial storedToken)).
  set (st := Auth.run fetch steps (Auth.initial storedToken)) in *.
  destruct (auth_step_invariant fetch st Auth.Settle G1) as [H1 H2].
  apply (G later _ H1). apply H2. right. reflexivity.
Qed.

(** X21.  When the user record cannot be loaded for the token held (the
    request fails, the response is not ok, or its body cannot be read)
    the provider logs out: user and token are cleared, the stored token
    is removed, one error is logged, every protected route redirects to
    [/login], and running the effect again sends nothing. *)
Theorem failed_load_logs_out
    (fetch : Auth.Fetch) (st : Auth.State)
    (Htoken : hasToken (Auth.token st) = true)
    (Hfail : forall u,
        fetch (Auth.meRequest (Auth.token st)) <> Got (Auth.Ok (Got u))) :
  let result := Auth.fetchUser fetch st in
  fst (fst result)
  = {| Auth.user := None; Auth.token := None; Auth.isLoading := false;
       Auth.stored := None |}
  /\ snd (fst result) = [Auth.meRequest (Auth.token st)]
  /\ List.length (snd result) = 1%nat
  /\ (forall requireAdmin,
        ProtectedRoute requireAdmin (fst (fst result)) = navigate "/login")
  /\ Auth.fetchUser fetch (fst (fst result)) = (fst (fst result), [], []).
Proof.
  cbv zeta.
  assert (R : exists message,
             Auth.fetchUser fetch st
             = ({| Auth.user := None; Auth.token := None;
                   Auth.isLoading := false; Auth.stored := None |},
                [Auth.meRequest (Auth.token st)], [message])).
  { unfold Auth.fetchUser. rewrite Htoken. cbn [negb].
    destruct (fetch (Auth.meRequest (Auth.token st)))
      as [m | [[m | u] | ]] eqn:E;
      try (exfalso; exact (Hfail u eq_refl)); eexists; reflexivity. }
  destruct R as [message R]. rewrite R. cbn [fst snd].
  split; [reflexivity | split; [reflexivity | split; [reflexivity | ]]].
  split; [intros []; reflexivity | reflexivity].
Qed.

Lemma failed_load_logs_out_witness :
  hasToken (Auth.token (Auth.login "tok" loggedOut)) = true
  /\ Auth.stored
       (fst (fst (Auth.fetchUser strictServer (Auth.login "tok" loggedOut))))
     = None.
Proof.
  split; [reflexivity | ].
  rewrite (proj1 (failed_load_logs_out strictServer
                    (Auth.login "tok" loggedOut) eq_refl
                    (fun u H => ltac:(discriminate H)))).
  reflexivity.
Defined.

(** X22.  Between a call of [login] and the end of the effect, a
    provider that had finished loading already counts as authenticated
    with the record it held before: a route that needs no admin shows
    its content at once, whatever the token, and an admin route is
    decided by the previous record, so after a fresh login it redirects
    to [/unauthorized] until the record arrives. *)
Theorem route_right_after_login
    (st : Auth.State) (newToken : string) (requireAdmin : bool)
    (Hsettled : Auth.isLoading st = false)
    (Hnew : newToken <> "") :
  ProtectedRoute requireAdmin (Auth.login newToken st)
  = (if requireAdmin && negb (isAdmin (Auth.user st))
     then navigate "/unauthorized" else outlet)
  /\ ProtectedRoute false (Auth.login newToken st) = outlet
  /\ (Auth.user st = None ->
      ProtectedRoute true (Auth.login newToken st) = navigate "/unauthorized").
Proof.
  unfold ProtectedRoute, Auth.isAuthenticated, hasToken.
  cbn [Auth.login Auth.isLoading Auth.token Auth.user].
  rewrite Hsettled. apply String.eqb_neq in Hnew. rewrite Hnew. cbn [negb].
  split; [reflexivity | split; [reflexivity | ]].
  intros ->. reflexivity.
Qed.

Lemma route_right_after_login_witness :
  Auth.isLoading loggedOut = false
  /\ ProtectedRoute true (Auth.login "tok" loggedOut)
     = navigate "/unauthorized".
Proof.
  split; [reflexivity | ].
  refine (proj2 (proj2 (route_right_after_login loggedOut "tok" true
                          eq_refl _)) eq_refl).
  discriminate.
Defined.

(** ** The admin dashboard *)

Lemma flat_map_nodes {H B : Type} (g : Html H -> list B)
                     (children : list (Html H)) :
  flat_map g (flat_map nodes children)
  = flat_map (fun c => flat_map g (nodes c)) children.
Proof.
  induction children as [ | c rest IH]; [reflexivity | ].
  cbn [flat_map]. rewrite flat_map_app, IH. reflexivity.
Qed.

Lemma handlersOf_text {H : Type} (s : string) :
  handlersOf (@HText H s) = [].
Proof. reflexivity. Qed.

Section Dashboard.

Import AdminDashboard.

Variable token : option string.
Variable fetch : Fetch.

Lemma handlersOf_userRow (u : User) :
  handlersOf (userRow u)
  = [ToggleUserStatus (id u) (is_active u); DeleteUser (id u)].
Proof.
  unfold userRow, cell, text.
  destruct (String.eqb (username u) ""), (String.eqb (email u) "");
    reflexivity.
Qed.

Lemma handlersOf_rows (l : list User) :
  flat_map (fun c => handlersOf c) (map userRow l)
  = flat_map (fun u => [ToggleUserStatus (id u) (is_active u);
                        DeleteUser (id u)]) l.
Proof.
  induction l as [ | u rest IH]; [reflexivity | ].
  cbn [map flat_map]. rewrite IH, handlersOf_userRow. reflexivity.
Qed.

(** X23.  The dashboard offers actions only when it shows the table:
    then each row has two buttons, which toggle and delete the user of
    that row, the toggle being called with the status that the row
    shows; while loading or showing an error there is no button. *)
Theorem row_buttons_act_on_their_row (st : State) :
  handlersOf (render st)
  = if loading st || truthyText (error st) then []
    else flat_map (fun u => [ToggleUserStatus (id u) (is_active u);
                             DeleteUser (id u)]) (users st).
Proof.
  unfold render.
  destruct (loading st); [reflexivity | ].
  destruct (truthyText (error st)) eqn:E; cbn [orb].
  - unfold text, orElse. destruct (error st) as [m | ]; [ | discriminate].
    cbn in E. apply negb_true_iff in E. rewrite !E. reflexivity.
  - rewrite <- handlersOf_rows. unfold handlersOf at 1.
    cbn [nodes classed flat_map List.app snd statCard].
    rewrite !app_nil_r. cbn [flat_map List.app snd].
    rewrite flat_map_nodes. reflexivity.
Qed.

Lemma same_id_same_user (l : list User) (u v : User) :
  NoDup (map id l) -> In u l -> In v l -> id u = id v -> u = v.
Proof.
  induction l as [ | w rest IH]; intros Hnd Hu Hv E; [contradiction | ].
  cbn in Hnd. inversion Hnd as [ | ? ? Hnot Hnd']; subst.
  destruct Hu as [-> | Hu], Hv as [-> | Hv].
  - reflexivity.
  - exfalso. apply Hnot. rewrite E. apply in_map. exact Hv.
  - exfalso. apply Hnot. rewrite <- E. apply in_map. exact Hu.
  - exact (IH Hnd' Hu Hv E).
Qed.

Lemma filter_absent (userId : string) (l : list User) :
  ~ In userId (map id l) ->
  filter (fun u => negb (String.eqb (id u) userId)) l = l.
Proof.
  induction l as [ | v rest IH]; intro Hnot; [reflexivity | ].
  cbn [filter]. destruct (String.eqb_spec (id v) userId) as [E | E].
  - exfalso. apply Hnot. left. exact E.
  - cbn [negb]. f_equal. apply IH. intro H. apply Hnot. right. exact H.
Qed.

(** X24.  A delete that the administrator confirms and the server
    accepts removes the users with that identifier from the list and
    keeps all others in their order, one user less when identifiers are
    distinct, without touching the error; a delete that is not
    confirmed sends no request and changes nothing. *)
Theorem accepted_delete_removes_the_user
    (userId : string) (st : State) (json : Reply (list User))
    (Hok : fetch (deleteRequest token userId) = Got (Accepted json)) :
  let st' := fst (deleteUser true token fetch userId st) in
  users st' = filter (fun u => negb (String.eqb (id u) userId)) (users st)
  /\ ~ In userId (map id (users st'))
  /\ (forall u, In u (users st') <-> In u (users st) /\ id u <> userId)
  /\ (NoDup (map id (users st)) -> In userId (map id (users st)) ->
      S (List.length (users st')) = List.length (users st))
  /\ error st' = error st
  /\ deleteUser false token fetch userId st = (st, []).
Proof.
  cbv zeta. unfold deleteUser. rewrite Hok. cbn [negb fst users setUsers error].
  split; [reflexivity | ]. split; [ | split; [ | split; [ | split; reflexivity]]].
  - intro Hin. apply in_map_iff in Hin. destruct Hin as (u & E & Hin).
    apply filter_In in Hin. destruct Hin as [_ Hne].
    apply negb_true_iff, String.eqb_neq in Hne. contradiction.
  - intro u. rewrite filter_In, negb_true_iff, String.eqb_neq. reflexivity.
  - generalize (users st). clear. intros l.
    induction l as [ | u rest IH]; intros Hnd Hin; [contradiction | ].
    cbn in Hnd. inversion Hnd as [ | ? ? Hnot Hnd']; subst.
    cbn [filter]. destruct (String.eqb_spec (id u) userId) as [E | E];
      cbn [negb].
    + rewrite filter_absent; [reflexivity | rewrite <- E; exact Hnot].
    + cbn [List.length]. f_equal. apply IH; [exact Hnd' | ].
      destruct Hin as [Hin | Hin]; [contradiction | exact Hin].
Qed.

(** X25.  A status toggle fired from a row and accepted by the server
    flips the status of that user alone, when identifiers are distinct:
    every other user stays as it was, the list keeps its length and
    order, and the same button, pressed again on the new row and
    accepted, restores the list. *)
Theorem accepted_toggle_flips_one_user
    (u : User) (st : State) (json json' : Reply (list User))
    (Hdistinct : NoDup (map id (users st)))
    (Hin : In u (users st))
    (Hok : fetch (statusRequest token (id u) (is_active u))
           = Got (Accepted json))
    (Hok' : fetch (statusRequest token (id u) (negb (is_active u)))
            = Got (Accepted json')) :
  let st' := fst (toggleUserStatus token fetch (id u) (is_active u) st) in
  users st'
  = map (fun v => if String.eqb (id v) (id u)
                  then {| id := id v; username := username v;
                          email := email v;
                          is_active := negb (is_active v);
                          is_admin := is_admin v |}
                  else v) (users st)
  /\ List.length (users st') = List.length (users st)
  /\ fst (toggleUserStatus token fetch (id u) (negb (is_active u)) st') = st.
Proof.
  cbv zeta. unfold toggleUserStatus. rewrite Hok.
  cbn [fst users setUsers]. rewrite Hok'.
  split; [ | split].
  - apply map_ext_in. intros v Hv. unfold withStatus.
    destruct (String.eqb_spec (id v) (id u)) as [E | E]; [ | reflexivity].
    rewrite (same_id_same_user _ v u Hdistinct Hv Hin E). reflexivity.
  - apply length_map.
  - destruct st as [l lo er]. unfold setUsers. cbn [users loading error] in *.
    f_equal. rewrite map_map. rewrite <- (map_id l) at 2.
    apply map_ext_in. intros v Hv. unfold withStatus.
    destruct (String.eqb_spec (id v) (id u)) as [E | E].
    + cbn [id]. rewrite E, String.eqb_refl.
      rewrite (same_id_same_user _ v u Hdistinct Hv Hin E).
      destruct u. cbn. rewrite negb_involutive. reflexivity.
    + apply String.eqb_neq in E. rewrite E. reflexivity.
Qed.

Lemma dashboard_step_keeps_error (st : State) (s : Step) :
  (error st <> None -> error (step token fetch st s) <> None)
  /\ (loading st = false -> loading (step token fetch st s) = false).
Proof.
  destruct s as [ | [userId isActive | userId] confirmed]; cbn [step].
  - unfold fetchUsers.
    destruct (fetch (listRequest token)) as [m | [[m | d] | status]];
      cbn; split; try discriminate; auto.
  - unfold toggleUserStatus.
    destruct (fetch (statusRequest token userId isActive))
      as [m | [j | status]]; cbn; split; try discriminate; auto.
  - unfold deleteUser. destruct confirmed; cbn [negb]; [ | auto].
    destruct (fetch (deleteRequest token userId)) as [m | [j | status]];
      cbn; split; try discriminate; auto.
Qed.

(** X26.  An error of the dashboard is never cleared: after a request
    has been refused with a status, whatever reloads, toggles and
    deletes follow, successful or not, the stored error is not null
    again, and as long as it is the status message the dashboard shows
    that error alone, without the table and without any button. *)
Theorem dashboard_error_is_never_cleared
    (st : State) (steps : list Step)
    (Hloaded : loading st = false)
    (Herror : error st <> None) :
  error (run token fetch steps st) <> None
  /\ loading (run token fetch steps st) = false
  /\ (forall status,
        error (run token fetch steps st) = Some (statusMessage status) ->
        render (run token fetch steps st)
        = classed "div" "admin-error"
            [HText "Error: "; HText (statusMessage status)]
        /\ handlersOf (render (run token fetch steps st)) = []).
Proof.
  assert (G : error (run token fetch steps st) <> None
              /\ loading (run token fetch steps st) = false).
  { revert st Hloaded Herror.
    induction steps as [ | s rest IH]; intros st Hl He; [split; assumption | ].
    destruct (dashboard_step_keeps_error st s) as [H1 H2].
    cbn [run fold_left]. apply IH; auto. }
  destruct G as [G1 G2]. split; [exact G1 | split; [exact G2 | ]].
  intros status E. unfold render. rewrite G2, E. split; reflexivity.
Qed.

End Dashboard.

Lemma accepted_delete_removes_the_user_witness :
  grantingServer (AdminDashboard.deleteRequest (Some "tok") "2")
  = Got (AdminDashboard.Accepted (Got twoUsers))
  /\ map AdminDashboard.username
         (AdminDashboard.users
            (fst (AdminDashboard.deleteUser true (Some "tok") grantingServer
                                            "2" listed)))
     = ["asha"].
Proof.
  split; [reflexivity | ].
  rewrite (proj1 (accepted_delete_removes_the_user
                    (Some "tok") grantingServer "2" listed (Got twoUsers)
                    eq_refl)).
  reflexivity.
Defined.

Lemma accepted_toggle_flips_one_user_witness :
  NoDup (map AdminDashboard.id (AdminDashboard.users listed))
  /\ In ravi (AdminDashboard.users listed)
  /\ map AdminDashboard.is_active
         (AdminDashboard.users
            (fst (AdminDashboard.toggleUserStatus
                    (Some "tok") grantingServer (AdminDashboard.id ravi)
                    (AdminDashboard.is_active ravi) listed)))
     = [true; true].
Proof.
  assert (Hd : NoDup (map AdminDashboard.id (AdminDashboard.users listed))).
  { cbn. constructor; [ | constructor; [ | constructor]].
    - intros [H | []]. discriminate H.
    - intros []. }
  assert (Hin : In ravi (AdminDashboard.users listed))
    by (right; left; reflexivity).
  split; [exact Hd | split; [exact Hin | ]].
  rewrite (proj1 (accepted_toggle_flips_one_user
                    (Some "tok") grantingServer ravi listed
                    (Got twoUsers) (Got twoUsers) Hd Hin eq_refl eq_refl)).
  reflexivity.
Defined.

Lemma dashboard_error_is_never_cleared_witness :
  AdminDashboard.loading refusedOnce = false
  /\ AdminDashboard.error refusedOnce <> None
  /\ AdminDashboard.error
       (AdminDashboard.run (Some "tok") grantingServer
          [ AdminDashboard.Reload;
            AdminDashboard.Click (AdminDashboard.DeleteUser "2") true ]
          refusedOnce)
     <> None.
Proof.
  assert (He : AdminDashboard.error refusedOnce <> None) by discriminate.
  split; [reflexivity | split; [exact He | ]].
  exact (proj1 (dashboard_error_is_never_cleared
                  (Some "tok") grantingServer refusedOnce
                  [ AdminDashboard.Reload;
                    AdminDashboard.Click (AdminDashboard.DeleteUser "2") true ]
                  eq_refl He)).
Defined.
